(** * Colmi R02 client scripts: a shallow embedding and its properties

    The development follows [scripts/get_hr.py], [scripts/get_spo2.py] and
    [scripts/demo_queries.py].  The scripts talk to the ring through the
    package's [Client]; the ring, the radio link and the terminal are an
    explicit world that every script threads through its calls. *)

From Stdlib Require Import ZArith List String Bool Lia Floats FinFun.
Import ListNotations.
Open Scope Z_scope.

(** ** Python values used by the scripts *)

Module datetime.

(** A [datetime.datetime].  [wall] is the wall-clock reading in
    microseconds since 1970-01-01T00:00:00 of the value's own zone;
    [tzinfo] is [None] for a naive value and [Some off] for an aware one whose
    UTC offset is [off] microseconds. *)
Record t := mk { wall : Z; tzinfo : option Z }.

Definition microseconds_per_day : Z := 86400000000.

Definition utcoffset (d : t) : Z :=
  match tzinfo d with Some off => off | None => 0 end.

(** The point on the UTC time line an aware value denotes. *)
Definition instant (d : t) : Z := wall d - utcoffset d.

(** [a > b] and [a <= b] on aware values compare the instants.  (Python
    raises TypeError when exactly one side is naive; the scripts only compare
    values they have made aware before.) *)
Definition gt (a b : t) : bool := instant b <? instant a.
Definition le (a b : t) : bool := instant a <=? instant b.

(** [d + timedelta(days=n)]: the wall clock moves, the zone stays. *)
Definition add_days (d : t) (n : Z) : t :=
  mk (wall d + n * microseconds_per_day) (tzinfo d).

(** [d + timedelta(microseconds=us)]. *)
Definition add_microseconds (d : t) (us : Z) : t :=
  mk (wall d + us) (tzinfo d).

Definition is_naive (d : t) : bool :=
  match tzinfo d with None => true | Some _ => false end.

End datetime.

Abbreviation datetime := datetime.t.

(** Exception classes the scripts can meet.  [CancelledError] and
    [KeyboardInterrupt] derive from [BaseException] only, so an
    [except Exception] clause lets them through. *)
Inductive exc_class :=
| ValueError | TypeError | AssertionError | TimeoutError | RuntimeError
| IndexError | StatisticsError | CancelledError | KeyboardInterrupt.

Record exn := mk_exn { exc_kind : exc_class; exc_msg : string }.

Definition is_Exception (e : exn) : bool :=
  match exc_kind e with
  | CancelledError | KeyboardInterrupt => false
  | _ => true
  end.

(** ** The package's [date_utils] *)

Module date_utils.

(** Modelled from the spec: [date_utils.naive_to_aware] is not among the
    sources ([toAware(naiveInstant)] of the DateUtils collaborator).  The
    script's docstring fixes the zone: a date without a zone is read as
    UTC. *)
Definition naive_to_aware (dt : datetime) : datetime :=
  datetime.mk (datetime.wall dt) (Some 0).

(** Modelled from the spec: [date_utils.start_of_day] is not among the
    sources ([startOfDay(instant)]): the same calendar day of the same
    zone at 00:00:00.000000. *)
Definition start_of_day (ts : datetime) : datetime :=
  datetime.mk
    (datetime.wall ts - datetime.wall ts mod datetime.microseconds_per_day)
    (datetime.tzinfo ts).

(** Modelled from the spec: [date_utils.dates_between] is not among the
    sources ([enumerateDays(start, end)], an ordered sequence of day
    instants, 24 hours apart, inclusive on both ends): [start], [start]
    plus one day, ... as long as the value is not after [end]. *)
Definition dates_between (start end_ : datetime) : list datetime :=
  if datetime.le start end_ then
    map (fun k => datetime.add_days start (Z.of_nat k))
        (seq 0 (Z.to_nat ((datetime.instant end_ - datetime.instant start)
                            / datetime.microseconds_per_day + 1)))
  else [].

End date_utils.

(** ** The package's [hr] and [real_time] values the scripts touch *)

Module hrmod.

(** [hr.HeartRateLog], with the attributes the script reads. *)
Record HeartRateLog := mk_log {
  heart_rates : list Z;
  timestamp : datetime;
  range : Z
}.

(** What [Client.get_heart_rate_log] returns: a log or the [NoData]
    sentinel. *)
Inductive result :=
| Log (log : HeartRateLog)
| NoData.

(** Modelled from the spec: [HeartRateLog.heart_rates_with_times] is not
    among the sources.  Every sample is offset from the log's timestamp by
    a fixed interval times its position, and arrival order is kept. *)
Fixpoint add_times (interval : Z) (hrs : list Z) (ts : datetime)
  : list (Z * datetime) :=
  match hrs with
  | [] => []
  | h :: rest =>
      (h, ts) :: add_times interval rest (datetime.add_microseconds ts interval)
  end.

Definition heart_rates_with_times (interval : Z) (log : HeartRateLog)
  : list (Z * datetime) :=
  add_times interval (heart_rates log) (timestamp log).

End hrmod.

Module real_time.
Inductive RealTimeReading := HEART_RATE | SPO2.
End real_time.

(** ** The world: ring, radio link, terminal and files *)

(** One row of the flattened download: [(ts.isoformat(), int(reading))]. *)
Definition row : Type := string * Z.

(** Lines the scripts print, kept structured instead of formatted. *)
Inductive message :=
| MsgRequesting (d : datetime)
| MsgErrorFetching (d : datetime) (e : exn)
| MsgNoDataForDate
| MsgReceived (n : nat) (range : Z) (ts : datetime)
| MsgWritten (n : nat) (path : string)
| MsgTotal (n : nat)
| MsgSummary (values : list Z)
| MsgAllZero
| MsgStarting
| MsgNoReadings
| MsgRawReadings (readings : list Z)
| MsgNoNonZero
| MsgNoValidSpo2
| MsgSpo2Readings (readings : list Z)
| MsgSpo2Error (e : exn).

(** A line of the CSV file. *)
Inductive csv_line :=
| CsvHeader (cols : list string)
| CsvRow (r : row).

(** Everything a script does that can be observed from outside, in the
    order it happens. *)
Inductive event :=
| Connect (address : string)
| Disconnect
| HrLogRequest (target : datetime)
| RealTimeRequest (kind : real_time.RealTimeReading)
| Print (m : message)
| CsvWrite (path : string) (lines : list csv_line).

(** The package's [Client] seen from the scripts.  [St] is the state of the
    ring and of the link; each call may change it, may return and may raise. *)
Record Client := mk_client {
  St : Type;
  (** [Client(address).__aenter__()] *)
  aenter : string -> St -> option exn * St;
  (** [client.get_heart_rate_log(target)] *)
  get_heart_rate_log : datetime -> St -> (exn + hrmod.result) * St;
  (** [client.get_realtime_reading(kind)]: a list of readings or [None] *)
  get_realtime_reading :
    real_time.RealTimeReading -> St -> (exn + option (list Z)) * St
}.

(** ** A small monad for the scripts: world state, exceptions, output *)

Section Scripts.

Variable c : Client.

(** The state of the ring and the events so far, oldest first. *)
Definition world : Type := St c * list event.

Definition M (A : Type) : Type := world -> (exn + A) * world.

Definition ret {A} (a : A) : M A := fun w => (inr a, w).

Definition bind {A B} (m : M A) (k : A -> M B) : M B :=
  fun w =>
    match m w with
    | (inl e, w') => (inl e, w')
    | (inr a, w') => k a w'
    end.

Definition raise {A} (e : exn) : M A := fun w => (inl e, w).

Definition emit (ev : event) : M unit :=
  fun w => (inr tt, (fst w, snd w ++ [ev])).

Definition print (m : message) : M unit := emit (Print m).

(** [try: m  except BaseException as e: ...] as a value: the outcome of
    [m], raised or returned, handed to the continuation. *)
Definition attempt {A} (m : M A) : M (exn + A) :=
  fun w => let '(r, w') := m w in (inr r, w').

(** A call into the client: the event is recorded, then the ring answers. *)
Definition call {A} (ev : event) (f : St c -> (exn + A) * St c) : M A :=
  fun w =>
    let '(r, s') := f (fst w) in (r, (s', snd w ++ [ev])).

Notation "x <- m ;; k" := (bind m (fun x => k))
  (at level 61, m at next level, right associativity).
Notation "m ;;; k" := (bind m (fun _ => k))
  (at level 61, right associativity).

(** [async with Client(address) as client: body].  Entering connects and
    may raise; leaving disconnects, also when the body raised, and the
    body's exception goes on. *)
Definition with_client {A} (address : string) (body : M A) : M A :=
  fun w =>
    let '(r, s') := aenter c address (fst w) in
    let w' := (s', snd w ++ [Connect address]) in
    match r with
    | Some e => (inl e, w')
    | None =>
        let '(res, w'') := body w' in
        (res, (fst w'', snd w'' ++ [Disconnect]))
    end.

(** *** scripts/get_hr.py *)

Variable isoformat : datetime -> string.
Variable sample_interval : Z.
Variable now : datetime.

(** [statistics.mean] raises StatisticsError on no data, and it is the
    first value the summary line formats. *)
Definition summary_line (values : list Z) : M unit :=
  match values with
  | [] => raise (mk_exn StatisticsError "mean requires at least one data point")
  | _ => print (MsgSummary values)
  end.

Definition nonzero (r : Z) : bool := negb (r =? 0).

Definition realtime_hr (address : string) : M unit :=
  with_client address (
    print MsgStarting ;;;
    readings <- call (RealTimeRequest real_time.HEART_RATE)
                     (get_realtime_reading c real_time.HEART_RATE) ;;
    match readings with
    | None | Some [] => print MsgNoReadings
    | Some readings =>
        let valid := filter nonzero readings in
        print (MsgRawReadings readings) ;;;
        match valid with
        | [] => print MsgNoNonZero
        | _ => summary_line valid
        end
    end).

Definition fetch_hr_for_date (target : datetime) : M hrmod.result :=
  call (HrLogRequest target) (get_heart_rate_log c target).

(** Lines 101-103: every pair of the log appended to [rows]. *)
Definition append_rows (rows : list row) (pairs : list (Z * datetime))
  : list row :=
  fold_left (fun acc p => acc ++ [(isoformat (snd p), fst p)]) pairs rows.

(** The [for d in date_utils.dates_between(start, end)] loop, lines
    88-103, with [rows] as the accumulator. *)
Fixpoint hr_loop (days : list datetime) (rows : list row) : M (list row) :=
  match days with
  | [] => ret rows
  | d :: rest =>
      print (MsgRequesting d) ;;;
      r <- attempt (fetch_hr_for_date (date_utils.start_of_day d)) ;;
      match r with
      | inl e =>
          if is_Exception e
          then print (MsgErrorFetching d e) ;;; hr_loop rest rows
          else raise e
      | inr hrmod.NoData =>
          print MsgNoDataForDate ;;; hr_loop rest rows
      | inr (hrmod.Log log) =>
          print (MsgReceived (List.length (hrmod.heart_rates log))
                             (hrmod.range log) (hrmod.timestamp log)) ;;;
          hr_loop rest
            (append_rows rows
               (hrmod.heart_rates_with_times sample_interval log))
      end
  end.

(** Lines 67-80: the defaults, then both ends made aware. *)
Definition default_window (start end_ : option datetime)
  : datetime * datetime :=
  match start, end_ with
  | None, None =>
      let s := date_utils.start_of_day now in (s, s)
  | None, Some e => (e, e)
  | Some s, None => (s, s)
  | Some s, Some e => (s, e)
  end.

Definition make_aware (d : datetime) : datetime :=
  if datetime.is_naive d then date_utils.naive_to_aware d else d.

Definition normalized_window (start end_ : option datetime)
  : datetime * datetime :=
  let '(s, e) := default_window start end_ in (make_aware s, make_aware e).

(** Lines 105-120: the CSV file, or the short summary. *)
Definition report (rows : list row) (csv_path : option string) : M unit :=
  match csv_path with
  | Some path =>
      emit (CsvWrite path
              (CsvHeader ["timestamp"%string; "heart_rate"%string]
                 :: map CsvRow rows)) ;;;
      print (MsgWritten (List.length rows) path)
  | None =>
      print (MsgTotal (List.length rows)) ;;;
      if (0 <? Z.of_nat (List.length rows)) then
        let values := filter nonzero (map snd rows) in
        match values with
        | [] => print MsgAllZero
        | _ => summary_line values
        end
      else ret tt
  end.

Definition download_hr_logs (address : string)
    (start end_ : option datetime) (csv_path : option string) : M unit :=
  let '(start, end_) := normalized_window start end_ in
  if datetime.gt start end_ then
    raise (mk_exn ValueError "start must be <= end")
  else
    rows <- with_client address
              (hr_loop (date_utils.dates_between start end_) []) ;;
    report rows csv_path.

(** [datetime.fromisoformat] and [datetime.strptime(_, "%Y-%m-%d")] of
    the Python library: a value, or the exception of a string that does
    not parse. *)
Variable fromisoformat : string -> exn + datetime.
Variable strptime_ymd : string -> exn + datetime.

Definition normalize_date_input (dt_str : option string)
  : exn + option datetime :=
  match dt_str with
  | None => inr None
  | Some str =>
      let parsed :=
        match fromisoformat str with
        | inr dt => inr dt
        | inl e => if is_Exception e then strptime_ymd str else inl e
        end in
      match parsed with
      | inl e => inl e
      | inr dt => inr (Some (date_utils.start_of_day (make_aware dt)))
      end
  end.

(** *** scripts/get_spo2.py *)

(** [r and 50 <= r <= 100] *)
Definition valid_spo2 (r : Z) : bool :=
  nonzero r && ((50 <=? r) && (r <=? 100)).

(** [count], [max_tries] and [timeout] are parameters of the Python
    function; its body never reads them. *)
Definition collect_spo2 (address : string)
    (count max_tries : Z) (timeout : float) : M (list Z) :=
  let readings : list Z := [] in
  early <- with_client address (
    result <- call (RealTimeRequest real_time.SPO2)
                   (get_realtime_reading c real_time.SPO2) ;;
    match result with
    | None => ret (inl [])
    | Some result => ret (inr (readings ++ result))
    end) ;;
  match early with
  | inl returned => ret returned
  | inr readings => ret (filter valid_spo2 readings)
  end.

Definition summarize (readings : list Z) : M unit :=
  match readings with
  | [] => print MsgNoValidSpo2
  | _ =>
      print (MsgSpo2Readings readings) ;;;
      print (MsgSummary readings)
  end.

(** [main] of get_spo2.py after argument parsing: [count] comes from the
    command line, the other two parameters keep their defaults. *)
Definition spo2_main (address : string) (count : Z) : M unit :=
  r <- attempt (readings <- collect_spo2 address count 20 2%float ;;
                summarize readings) ;;
  match r with
  | inr _ => ret tt
  | inl e =>
      if is_Exception e then print (MsgSpo2Error e) else raise e
  end.

(** *** [main] of scripts/get_hr.py *)

(** A value or an exception computed outside the world. *)
Definition lift {A} (r : exn + A) : M A := fun w => (r, w).

(** [Path(args.csv) if args.csv else None]: no option and the empty string
    both mean no file. *)
Definition csv_path_of (csv : option string) : option string :=
  match csv with
  | None | Some EmptyString => None
  | Some path => Some path
  end.

(** Lines 140-143: the target day replaces the window when neither end was
    given on the command line. *)
Definition window_of_args (target start end_ : option datetime)
    (args_start args_end : option string)
  : option datetime * option datetime :=
  match target, args_start, args_end with
  | Some t, None, None => (Some t, Some t)
  | _, _, _ => (start, end_)
  end.

(** [main] after argument parsing, lines 134-145.  [log_mode] is
    [args.mode == "log"]; the three dates and the CSV path come from the
    command line, [None] for an option not given. *)
Definition hr_main (address : string) (log_mode : bool)
    (args_target args_start args_end args_csv : option string) : M unit :=
  if log_mode then
    target <- lift (normalize_date_input args_target) ;;
    start <- lift (normalize_date_input args_start) ;;
    end_ <- lift (normalize_date_input args_end) ;;
    let '(start, end_) :=
      window_of_args target start end_ args_start args_end in
    download_hr_logs address start end_ (csv_path_of args_csv)
  else realtime_hr address.

End Scripts.

Arguments ret {c A} a w.
Arguments raise {c A} e w.

(** ** The package's [packet] and log parsers, as far as the demo uses them *)

Module packet.

(** A [bytearray]: its bytes as integers of [range(256)]. *)
Definition bytearray (n : nat) : list Z := repeat 0 n.

(** [p[i] = v].  A negative index counts from the end; an index outside the
    array raises IndexError, a value outside [range(256)] ValueError. *)
Definition setitem (p : list Z) (i : Z) (v : Z) : exn + list Z :=
  let n := Z.of_nat (List.length p) in
  let j := if i <? 0 then i + n else i in
  if (j <? 0) || (n <=? j) then
    inl (mk_exn IndexError "bytearray index out of range")
  else if (v <? 0) || (256 <=? v) then
    inl (mk_exn ValueError "byte must be in range(0, 256)")
  else
    inr (firstn (Z.to_nat j) p ++ v :: skipn (S (Z.to_nat j)) p).

(** Modelled from the spec: [packet.checksum] is not among the sources.
    It is the sum of all bytes preceding the checksum slot (bytes 0-14 of
    the 16-byte frame), truncated to one byte. *)
Definition checksum (p : list Z) : Z :=
  fold_right Z.add 0 (firstn 15 p) mod 256.

(** Byte 1 of a frame: the subtype, or the first header byte. *)
Definition subtype (p : list Z) : Z := nth 1 p 0.

(** Byte 0 of a frame: the command. *)
Definition command (p : list Z) : Z := nth 0 p 0.

(** Modelled from the spec: [validate] of the PacketCodec, the trailing
    byte of a 16-byte frame against the recomputed checksum. *)
Definition valid (p : list Z) : bool :=
  (List.length p =? 16)%nat && (nth 15 p 0 =? checksum p).

End packet.

Module LogRecordParser.

(** The header and slice layout of a metric.  The spec leaves the layout
    open, so it is a parameter of the parser. *)
Record layout := mk_layout {
  header_timestamp : list Z -> datetime;
  header_count : list Z -> nat;
  frame_samples : list Z -> list Z
}.

Inductive state :=
| AwaitingFirst
| Accumulating (ts : datetime) (expected : nat) (samples : list Z)
| Complete
| NoDataTerminal.

(** The tagged result of a request. *)
Inductive result :=
| NoData
| CompleteLog (ts : datetime) (samples : list Z)
| IncompleteLog (samples : list Z).

(** Modelled from the spec: the parsers of the package's [hr] and [steps]
    modules are not among the sources.  One frame is consumed.  The first
    frame either carries the sentinel subtype 255, and the request ends
    with [NoData], or it is the header; every further frame adds its slice
    of samples, and the log is complete when the expected count is
    reached.  A parser that has produced its result consumes nothing. *)
Definition parse (l : layout) (st : state) (frame : list Z)
  : state * option result :=
  match st with
  | AwaitingFirst =>
      if packet.subtype frame =? 255 then (NoDataTerminal, Some NoData)
      else (Accumulating (header_timestamp l frame) (header_count l frame) [],
            None)
  | Accumulating ts expected samples =>
      let samples' := samples ++ frame_samples l frame in
      if (expected <=? List.length samples')%nat
      then (Complete, Some (CompleteLog ts samples'))
      else (Accumulating ts expected samples', None)
  | Complete => (Complete, None)
  | NoDataTerminal => (NoDataTerminal, None)
  end.

(** Modelled from the spec: a whole request, the frames in the order
    delivered.  A session that ends before the log is complete surfaces
    the samples gathered so far. *)
Fixpoint run (l : layout) (st : state) (frames : list (list Z)) : result :=
  match frames with
  | [] =>
      match st with
      | Accumulating _ _ samples => IncompleteLog samples
      | _ => IncompleteLog []
      end
  | frame :: rest =>
      match parse l st frame with
      | (_, Some r) => r
      | (st', None) => run l st' rest
      end
  end.

(** A request from its first frame on. *)
Definition request (l : layout) (frames : list (list Z)) : result :=
  run l AwaitingFirst frames.

End LogRecordParser.

(** ** scripts/demo_queries.py *)

Section Demo.

(** [hr.CMD_READ_HEART_RATE] and [steps.CMD_GET_STEP_SOMEDAY], and the
    layouts of the two parsers: constants of the package. *)
Variable CMD_READ_HEART_RATE CMD_GET_STEP_SOMEDAY : Z.
Variable hr_layout steps_layout : LogRecordParser.layout.

(** The packet both demos build: 16 zero bytes, the command, subtype 255
    and the checksum in the last slot. *)
Definition nodata_packet (cmd : Z) : exn + list Z :=
  let p := packet.bytearray 16 in
  match packet.setitem p 0 cmd with
  | inl e => inl e
  | inr p =>
      match packet.setitem p 1 255 with
      | inl e => inl e
      | inr p => packet.setitem p (-1) (packet.checksum p)
      end
  end.

(** [demo_hr_nodata]: the packet, and what a fresh
    [hr.HeartRateLogParser] makes of it. *)
Definition demo_hr_nodata
  : exn + (list Z * option LogRecordParser.result) :=
  match nodata_packet CMD_READ_HEART_RATE with
  | inl e => inl e
  | inr p =>
      inr (p, snd (LogRecordParser.parse hr_layout
                     LogRecordParser.AwaitingFirst p))
  end.

(** [demo_steps_nodata]: the same with a fresh [steps.SportDetailParser]. *)
Definition demo_steps_nodata
  : exn + (list Z * option LogRecordParser.result) :=
  match nodata_packet CMD_GET_STEP_SOMEDAY with
  | inl e => inl e
  | inr p =>
      inr (p, snd (LogRecordParser.parse steps_layout
                     LogRecordParser.AwaitingFirst p))
  end.

End Demo.

(** ** Vocabulary of the statements *)

(** The targets of the heart-rate log requests among the events, in order. *)
Definition hr_requests (out : list event) : list datetime :=
  flat_map (fun ev => match ev with HrLogRequest d => [d] | _ => [] end) out.

(** The events with which [download_hr_logs] hands [rows] out. *)
Definition report_events (rows : list row) (csv_path : option string)
  : list event :=
  match csv_path with
  | Some path =>
      [CsvWrite path (CsvHeader ["timestamp"%string; "heart_rate"%string]
                        :: map CsvRow rows);
       Print (MsgWritten (List.length rows) path)]
  | None =>
      Print (MsgTotal (List.length rows)) ::
      match rows with
      | [] => []
      | _ =>
          match filter nonzero (map snd rows) with
          | [] => [Print MsgAllZero]
          | values => [Print (MsgSummary values)]
          end
      end
  end.

Section Observations.

Variable c : Client.
Variable isoformat : datetime -> string.
Variable sample_interval : Z.

(** What the ring answers, day by day, when the days are requested in
    order from state [s]; and the state it is left in. *)
Fixpoint responses (days : list datetime) (s : St c)
  : list (datetime * (exn + hrmod.result)) * St c :=
  match days with
  | [] => ([], s)
  | d :: rest =>
      let '(r, s') := get_heart_rate_log c (date_utils.start_of_day d) s in
      let '(rs, s'') := responses rest s' in
      ((d, r) :: rs, s'')
  end.

(** The rows a day contributes. *)
Definition rows_of_day (dr : datetime * (exn + hrmod.result)) : list row :=
  match snd dr with
  | inr (hrmod.Log log) =>
      map (fun p => (isoformat (snd p), fst p))
          (hrmod.heart_rates_with_times sample_interval log)
  | _ => []
  end.

(** The readings a day delivers, as the ring sent them. *)
Definition readings_of_day (dr : datetime * (exn + hrmod.result)) : list Z :=
  match snd dr with
  | inr (hrmod.Log log) => hrmod.heart_rates log
  | _ => []
  end.

(** The events of one turn of the loop. *)
Definition events_of_day (dr : datetime * (exn + hrmod.result))
  : list event :=
  [Print (MsgRequesting (fst dr));
   HrLogRequest (date_utils.start_of_day (fst dr))] ++
  match snd dr with
  | inl e => [Print (MsgErrorFetching (fst dr) e)]
  | inr hrmod.NoData => [Print MsgNoDataForDate]
  | inr (hrmod.Log log) =>
      [Print (MsgReceived (List.length (hrmod.heart_rates log))
                          (hrmod.range log) (hrmod.timestamp log))]
  end.

(** The failure of a day is one the loop's [except Exception] catches. *)
Definition caught (dr : datetime * (exn + hrmod.result)) : Prop :=
  match snd dr with
  | inl e => is_Exception e = true
  | inr _ => True
  end.

(** The events of a download that got through its window. *)
Definition download_events (address : string)
    (rs : list (datetime * (exn + hrmod.result)))
    (csv_path : option string) : list event :=
  [Connect address] ++ flat_map events_of_day rs ++ [Disconnect] ++
  report_events (flat_map rows_of_day rs) csv_path.

End Observations.

(** The ring's answer holds no reading the filter [ok] keeps. *)
Definition no_valid (ok : Z -> bool) (answer : option (list Z)) : Prop :=
  match answer with
  | None => True
  | Some l => filter ok l = []
  end.

(** A date window of the data model: both ends aware, at the start of a
    day, in one zone. *)
Definition calendar_day (d : datetime) : Prop :=
  datetime.wall d mod datetime.microseconds_per_day = 0.

Definition date_window (start end_ : datetime) : Prop :=
  calendar_day start /\ calendar_day end_ /\
  datetime.tzinfo start = datetime.tzinfo end_ /\
  datetime.is_naive start = false.

(** The events of the loop over the days: lines printed and logs
    requested. *)
Definition loop_event (ev : event) : bool :=
  match ev with
  | Print _ | HrLogRequest _ => true
  | _ => false
  end.

(** ** Rings to run the scripts against *)

Module Ring.

Definition timed_out : exn := mk_exn TimeoutError "no answer from the ring".

(** A ring that answers the heart-rate log requests from a script, one
    answer per request, and every real-time request with [rt]. *)
Definition scripted (rt : exn + option (list Z)) : Client :=
  {| St := list (exn + hrmod.result);
     aenter := fun _ s => (None, s);
     get_heart_rate_log := fun _ s =>
       match s with
       | [] => (inl timed_out, [])
       | a :: rest => (a, rest)
       end;
     get_realtime_reading := fun _ s => (rt, s) |}.

Definition iso (d : datetime) : string := "t"%string.

(** 2025-11-01T00:00:00+00:00 *)
Definition nov1 : datetime := datetime.mk 1761955200000000 (Some 0).
(** 2025-11-12T00:00:00+00:00 *)
Definition nov12 : datetime := datetime.mk 1762905600000000 (Some 0).
(** 2025-11-03T00:00:00+00:00 *)
Definition nov3 : datetime := datetime.mk 1762128000000000 (Some 0).
(** 2025-11-01T00:00:00, naive *)
Definition nov1_naive : datetime := datetime.mk 1761955200000000 None.

Definition five_minutes : Z := 300000000.

Definition log1 : hrmod.HeartRateLog :=
  hrmod.mk_log [61; 0; 64] nov1 5.

(** Three days: a log, a failure, no data. *)
Definition three_days : list (exn + hrmod.result) :=
  [inr (hrmod.Log log1); inl timed_out; inr hrmod.NoData].

(** 2025-11-02T00:00:00+00:00 *)
Definition nov2 : datetime := datetime.mk 1762041600000000 (Some 0).

Definition address : string := "CB:2C:18:A7:4A:00".

(** A ring not worn: the real-time readings are all zero. *)
Definition idle : Client := scripted (inr (Some [0; 0; 0])).

(** A ring worn: some readings are good, some are not. *)
Definition worn : Client := scripted (inr (Some [97; 0; 120; 98; 30; 99])).

(** The frame of [demo_hr_nodata] when the command byte is 21. *)
Definition nodata_frame : list Z :=
  [21; 255; 0; 0; 0; 0; 0; 0; 0; 0; 0; 0; 0; 0; 0; 20].

(** A layout to run the parser with: no header fields, one sample a
    frame. *)
Definition plain_layout : LogRecordParser.layout :=
  LogRecordParser.mk_layout (fun _ => nov1) (fun _ => 2%nat)
                            (fun f => [nth 2 f 0]).

(** A ring out of reach: the connection times out. *)
Definition unreachable : Client :=
  {| St := unit;
     aenter := fun _ s => (Some timed_out, s);
     get_heart_rate_log := fun _ s => (inl timed_out, s);
     get_realtime_reading := fun _ s => (inl timed_out, s) |}.

(** A ring whose real-time request times out. *)
Definition silent : Client := scripted (inl timed_out).

Definition cancelled : exn := mk_exn CancelledError "".

(** A ring whose real-time request is cancelled. *)
Definition interrupted : Client := scripted (inl cancelled).

(** Two days: a log, then the fetch is cancelled. *)
Definition cancelled_on_day_two : list (exn + hrmod.result) :=
  [inr (hrmod.Log log1); inl cancelled].

Definition not_a_date : exn := mk_exn ValueError "Invalid isoformat string".

(** A stand-in for [datetime.fromisoformat] that knows three strings: two
    dates without a zone and one instant with the zone +00:00. *)
Definition parse_iso (str : string) : exn + datetime :=
  if String.eqb str "2025-11-01" then inr nov1_naive
  else if String.eqb str "2025-11-03" then
    inr (datetime.mk 1762128000000000 None)
  else if String.eqb str "2025-11-02T13:30:00+00:00" then
    inr (datetime.mk 1762090200000000 (Some 0))
  else inl not_a_date.

(** A stand-in for [datetime.strptime(_, "%Y-%m-%d")] that parses nothing
    the first does not. *)
Definition parse_ymd (str : string) : exn + datetime := inl not_a_date.

End Ring.

(** ** How the scripts run *)

Section Runs.

Variable c : Client.
Variable isoformat : datetime -> string.
Variable sample_interval : Z.
Variable now : datetime.

Lemma append_rows_app (pairs : list (Z * datetime)) : forall rows,
  append_rows isoformat rows pairs =
  rows ++ map (fun p => (isoformat (snd p), fst p)) pairs.
Proof.
  unfold append_rows.
  induction pairs as [|p pairs IH]; intros rows; simpl.
  - now rewrite app_nil_r.
  - rewrite IH, <- app_assoc. reflexivity.
Qed.

Lemma responses_cons (d : datetime) (rest : list datetime) (s : St c) :
  responses c (d :: rest) s =
  ((d, fst (get_heart_rate_log c (date_utils.start_of_day d) s))
     :: fst (responses c rest
               (snd (get_heart_rate_log c (date_utils.start_of_day d) s))),
   snd (responses c rest
          (snd (get_heart_rate_log c (date_utils.start_of_day d) s)))).
Proof.
  simpl.
  destruct (get_heart_rate_log c (date_utils.start_of_day d) s) as [r s'].
  cbn [fst snd].
  destruct (responses c rest s') as [rs s'']. reflexivity.
Qed.

Lemma responses_days (days : list datetime) : forall s,
  map fst (fst (responses c days s)) = days.
Proof.
  induction days as [|d rest IH]; intros s.
  - reflexivity.
  - rewrite responses_cons. simpl. now rewrite IH.
Qed.

(** One turn of the loop, whatever the ring answers. *)
Lemma hr_loop_step (d : datetime) (rest : list datetime) (rows : list row)
      (s : St c) (out : list event) :
  let a := get_heart_rate_log c (date_utils.start_of_day d) s in
  let w' := (snd a, out ++ events_of_day (d, fst a)) in
  hr_loop c isoformat sample_interval (d :: rest) rows (s, out) =
  match fst a with
  | inl e =>
      if is_Exception e
      then hr_loop c isoformat sample_interval rest rows w'
      else (inl e, (snd a, out ++ [Print (MsgRequesting d);
                                   HrLogRequest (date_utils.start_of_day d)]))
  | inr r =>
      hr_loop c isoformat sample_interval rest
        (rows ++ rows_of_day isoformat sample_interval (d, fst a)) w'
  end.
Proof.
  simpl. unfold bind, print, emit, attempt, fetch_hr_for_date, call,
    events_of_day, rows_of_day. simpl.
  destruct (get_heart_rate_log c (date_utils.start_of_day d) s) as [r s'].
  simpl. destruct r as [e | [log | ]]; simpl.
  - destruct (is_Exception e); simpl.
    + now rewrite <- !app_assoc.
    + now rewrite <- !app_assoc.
  - rewrite <- !app_assoc. simpl. rewrite append_rows_app. reflexivity.
  - rewrite <- !app_assoc. simpl. now rewrite app_nil_r.
Qed.

(** The whole loop, when every failure is one [except Exception] catches. *)
Lemma hr_loop_run (days : list datetime) : forall rows s out,
  Forall caught (fst (responses c days s)) ->
  hr_loop c isoformat sample_interval days rows (s, out) =
  (inr (rows ++ flat_map (rows_of_day isoformat sample_interval)
                         (fst (responses c days s))),
   (snd (responses c days s),
    out ++ flat_map events_of_day (fst (responses c days s)))).
Proof.
  induction days as [|d rest IH]; intros rows s out Hc.
  - simpl. now rewrite !app_nil_r.
  - rewrite hr_loop_step. rewrite responses_cons in *.
    cbn [fst snd] in *. inversion Hc as [|x l Hd Hrest]; subst.
    unfold caught in Hd. cbn [snd] in Hd.
    cbn [flat_map].
    destruct (fst (get_heart_rate_log c (date_utils.start_of_day d) s))
      as [e | r] eqn:Ha.
    + rewrite Hd. rewrite IH by assumption.
      unfold rows_of_day at 2. cbn [snd]. cbn [app].
      now rewrite <- app_assoc.
    + rewrite IH by assumption. now rewrite <- !app_assoc.
Qed.

Lemma report_run (rows : list row) (csv_path : option string)
      (s : St c) (out : list event) :
  report c rows csv_path (s, out) =
  (inr tt, (s, out ++ report_events rows csv_path)).
Proof.
  unfold report, report_events, bind, print, emit, summary_line, ret.
  destruct csv_path as [path|]; cbn [fst snd].
  - now rewrite <- app_assoc.
  - destruct rows as [|r rows].
    + reflexivity.
    + change (0 <? Z.of_nat (List.length (r :: rows))) with true.
      cbv iota.
      destruct (filter nonzero (map snd (r :: rows))) as [|v vs];
        unfold print, emit; cbn [fst snd]; now rewrite <- app_assoc.
Qed.

Lemma download_hr_logs_run (address : string) (start end_ : option datetime)
      (csv_path : option string) (s0 s1 : St c) (out : list event) :
  let w := normalized_window now start end_ in
  let days := date_utils.dates_between (fst w) (snd w) in
  datetime.gt (fst w) (snd w) = false ->
  aenter c address s0 = (None, s1) ->
  Forall caught (fst (responses c days s1)) ->
  download_hr_logs c isoformat sample_interval now address start end_
    csv_path (s0, out) =
  (inr tt,
   (snd (responses c days s1),
    out ++ download_events isoformat sample_interval address
             (fst (responses c days s1)) csv_path)).
Proof.
  intros w days Hle Hopen Hc. unfold download_hr_logs.
  fold w. destruct w as [st en] eqn:Hw. cbn [fst snd] in *.
  rewrite Hle. unfold bind, with_client. cbn [fst snd].
  rewrite Hopen. fold days. rewrite hr_loop_run by assumption.
  cbn [fst snd app]. rewrite report_run. unfold download_events.
  now rewrite <- !app_assoc.
Qed.

End Runs.

(** ** The requests a download issues *)

Lemma hr_requests_app (a b : list event) :
  hr_requests (a ++ b) = hr_requests a ++ hr_requests b.
Proof. unfold hr_requests. apply flat_map_app. Qed.

Lemma hr_requests_days (rs : list (datetime * (exn + hrmod.result))) :
  hr_requests (flat_map events_of_day rs) =
  map date_utils.start_of_day (map fst rs).
Proof.
  induction rs as [|[d r] rs IH]; simpl.
  - reflexivity.
  - rewrite hr_requests_app, IH.
    destruct r as [e | [log | ]]; reflexivity.
Qed.

Lemma hr_requests_report (rows : list row) (csv_path : option string) :
  hr_requests (report_events rows csv_path) = [].
Proof.
  destruct csv_path as [path|]; simpl.
  - reflexivity.
  - destruct rows as [|r rows]; simpl.
    + reflexivity.
    + destruct (if nonzero (snd r) then _ else _); reflexivity.
Qed.

Lemma hr_requests_download (isoformat : datetime -> string) (interval : Z)
      (address : string) (rs : list (datetime * (exn + hrmod.result)))
      (csv_path : option string) :
  hr_requests (download_events isoformat interval address rs csv_path) =
  map date_utils.start_of_day (map fst rs).
Proof.
  unfold download_events.
  rewrite !hr_requests_app, hr_requests_days, hr_requests_report.
  simpl. now rewrite app_nil_r.
Qed.

(** ** Calendar days *)

Lemma add_days_0 (d : datetime) : datetime.add_days d 0 = d.
Proof.
  destruct d as [w z]. unfold datetime.add_days. simpl.
  f_equal. lia.
Qed.

Lemma start_of_day_calendar_day (d : datetime) :
  calendar_day d -> date_utils.start_of_day d = d.
Proof.
  unfold calendar_day, date_utils.start_of_day. intros H.
  destruct d as [w z]. simpl in *. rewrite H. f_equal. lia.
Qed.

Lemma calendar_day_add_days (d : datetime) (n : Z) :
  calendar_day d -> calendar_day (datetime.add_days d n).
Proof.
  unfold calendar_day, datetime.add_days. simpl. intros H.
  rewrite Z.mod_add by (unfold datetime.microseconds_per_day; lia).
  exact H.
Qed.

Lemma add_days_injective (d : datetime) (i j : nat) :
  datetime.add_days d (Z.of_nat i) = datetime.add_days d (Z.of_nat j) -> i = j.
Proof.
  unfold datetime.add_days, datetime.microseconds_per_day. intros H.
  inversion H. lia.
Qed.

(** The ends of a date window are a whole number of days apart. *)
Lemma date_window_span (start end_ : datetime) :
  date_window start end_ ->
  datetime.gt start end_ = false ->
  let n := (datetime.instant end_ - datetime.instant start)
             / datetime.microseconds_per_day in
  0 <= n /\ datetime.add_days start n = end_.
Proof.
  unfold date_window, calendar_day, datetime.gt, datetime.instant,
    datetime.utcoffset, datetime.add_days.
  destruct start as [ws zs], end_ as [we ze]. simpl.
  intros (Hs & He & Hz & _) Hle. subst ze.
  apply Z.ltb_ge in Hle.
  set (off := match zs with Some o => o | None => 0 end) in *.
  replace (we - off - (ws - off)) with (we - ws) by lia.
  assert (Hd : 0 < datetime.microseconds_per_day)
    by (unfold datetime.microseconds_per_day; lia).
  assert (Hm : (we - ws) mod datetime.microseconds_per_day = 0).
  { rewrite Zminus_mod, Hs, He. reflexivity. }
  split.
  - apply Z.div_pos; lia.
  - f_equal.
    pose proof (Z.div_mod (we - ws) datetime.microseconds_per_day) as E.
    rewrite Hm in E. lia.
Qed.

Lemma dates_between_window (start end_ : datetime) :
  datetime.gt start end_ = false ->
  let n := (datetime.instant end_ - datetime.instant start)
             / datetime.microseconds_per_day in
  date_utils.dates_between start end_ =
  map (fun k => datetime.add_days start (Z.of_nat k))
      (seq 0 (Z.to_nat (n + 1))).
Proof.
  unfold date_utils.dates_between, datetime.gt, datetime.le. intros H.
  apply Z.ltb_ge in H. apply Z.leb_le in H. now rewrite H.
Qed.

Lemma dates_between_calendar_days (start end_ : datetime) :
  calendar_day start ->
  map date_utils.start_of_day (date_utils.dates_between start end_) =
  date_utils.dates_between start end_.
Proof.
  intros Hs. unfold date_utils.dates_between.
  destruct (datetime.le start end_); [|reflexivity].
  rewrite map_map. apply map_ext. intros k.
  apply start_of_day_calendar_day, calendar_day_add_days, Hs.
Qed.

Lemma dates_between_NoDup (start end_ : datetime) :
  NoDup (date_utils.dates_between start end_).
Proof.
  unfold date_utils.dates_between.
  destruct (datetime.le start end_); [|constructor].
  apply Injective_map_NoDup.
  - intros i j. apply add_days_injective.
  - apply seq_NoDup.
Qed.

(** ** The range download *)

Section Download.

Variable c : Client.
Variable isoformat : datetime -> string.
Variable sample_interval : Z.
Variable now : datetime.

(** C1: a day whose fetch or parse raises an exception is recorded and the
    loop goes on.  A turn of the loop whose fetch raises an [Exception]
    prints the error line, keeps the rows collected so far and runs the
    remaining days.  So, when the connection opens on a window with
    start <= end and the failures are exceptions of class [Exception], the
    download returns normally, every day of the window is requested, each
    failed day leaves its error line, the days after it are still
    requested, and the rows handed out are those of the days before it
    followed by those of the days after it. *)
Theorem download_continues_after_failed_day
    (address : string) (start end_ : option datetime)
    (csv_path : option string) (s0 s1 : St c) :
  let w := normalized_window now start end_ in
  let days := date_utils.dates_between (fst w) (snd w) in
  let rs := fst (responses c days s1) in
  let run := download_hr_logs c isoformat sample_interval now
               address start end_ csv_path (s0, []) in
  let out := snd (snd run) in
  (forall d rest rows s s' out' e,
     get_heart_rate_log c (date_utils.start_of_day d) s = (inl e, s') ->
     is_Exception e = true ->
     hr_loop c isoformat sample_interval (d :: rest) rows (s, out') =
     hr_loop c isoformat sample_interval rest rows
       (s', out' ++ [Print (MsgRequesting d);
                     HrLogRequest (date_utils.start_of_day d);
                     Print (MsgErrorFetching d e)])) /\
  (datetime.gt (fst w) (snd w) = false ->
   aenter c address s0 = (None, s1) ->
   Forall caught rs ->
   fst run = inr tt /\
   hr_requests out = map date_utils.start_of_day days /\
   out = download_events isoformat sample_interval address rs csv_path /\
   forall before d e after,
     rs = before ++ (d, inl e) :: after ->
     In (Print (MsgErrorFetching d e)) out /\
     (forall d', In d' (map fst after) ->
                 In (date_utils.start_of_day d') (hr_requests out)) /\
     flat_map (rows_of_day isoformat sample_interval) rs =
     flat_map (rows_of_day isoformat sample_interval) before ++
     flat_map (rows_of_day isoformat sample_interval) after).
Proof.
  intros w days rs run out. split.
  { intros d rest rows s s' out' e Hget He.
    rewrite hr_loop_step. rewrite Hget. cbn [fst snd]. rewrite He.
    reflexivity. }
  intros Hle Hopen Hc.
  assert (Hrun : run =
    (inr tt, (snd (responses c days s1),
              download_events isoformat sample_interval address rs csv_path))).
  { unfold run.
    rewrite (download_hr_logs_run c isoformat sample_interval now address
               start end_ csv_path s0 s1 []) by assumption.
    reflexivity. }
  assert (Hout : out =
    download_events isoformat sample_interval address rs csv_path)
    by (unfold out; now rewrite Hrun).
  assert (Hreq : hr_requests out = map date_utils.start_of_day days).
  { rewrite Hout, hr_requests_download. unfold rs.
    now rewrite responses_days. }
  split; [now rewrite Hrun|]. split; [exact Hreq|]. split; [exact Hout|].
  intros before d e after Hsplit. split; [|split].
  - rewrite Hout. unfold download_events. rewrite Hsplit.
    apply in_or_app. right. apply in_or_app. left.
    rewrite flat_map_app. apply in_or_app. right. simpl. auto.
  - intros d' Hin. rewrite Hreq. apply in_map.
    unfold days. fold days.
    rewrite <- (responses_days c days s1). fold rs. rewrite Hsplit.
    rewrite map_app. apply in_or_app. right. simpl. auto.
  - rewrite Hsplit, flat_map_app. reflexivity.
Qed.

(** C2: a window whose normalized start is after its normalized end raises
    ValueError, and the world is left as it was: no connection is opened
    and no request is made. *)
Theorem download_rejects_reversed_window
    (address : string) (start end_ : option datetime)
    (csv_path : option string) (w0 : world c) :
  let w := normalized_window now start end_ in
  datetime.gt (fst w) (snd w) = true ->
  download_hr_logs c isoformat sample_interval now
    address start end_ csv_path w0 =
  (inl (mk_exn ValueError "start must be <= end"), w0).
Proof.
  intros w H. unfold download_hr_logs. fold w.
  destruct w as [st en]. cbn [fst snd] in H. now rewrite H.
Qed.

(** C4: on a date window with start <= end, when the connection opens and
    the failures are exceptions of class [Exception], the requests are the
    days start, start + 1 day, ..., end, each once, in this order, and
    each target is the start of its day. *)
Theorem download_requests_each_day_once
    (address : string) (start end_ : option datetime)
    (csv_path : option string) (s0 s1 : St c) :
  let w := normalized_window now start end_ in
  let days := date_utils.dates_between (fst w) (snd w) in
  let n := (datetime.instant (snd w) - datetime.instant (fst w))
             / datetime.microseconds_per_day in
  let out := snd (snd (download_hr_logs c isoformat sample_interval now
                         address start end_ csv_path (s0, []))) in
  date_window (fst w) (snd w) ->
  datetime.gt (fst w) (snd w) = false ->
  aenter c address s0 = (None, s1) ->
  Forall caught (fst (responses c days s1)) ->
  hr_requests out =
    map (fun k => datetime.add_days (fst w) (Z.of_nat k))
        (seq 0 (Z.to_nat (n + 1))) /\
  0 <= n /\
  datetime.add_days (fst w) 0 = fst w /\
  datetime.add_days (fst w) n = snd w /\
  NoDup (hr_requests out) /\
  hr_requests out = map date_utils.start_of_day days /\
  Forall calendar_day (hr_requests out).
Proof.
  intros w days n out Hwin Hle Hopen Hc.
  assert (Hreq : hr_requests out = map date_utils.start_of_day days).
  { unfold out.
    rewrite (download_hr_logs_run c isoformat sample_interval now address
               start end_ csv_path s0 s1 []) by assumption.
    cbn [fst snd app]. rewrite hr_requests_download.
    now rewrite responses_days. }
  assert (Hcal : calendar_day (fst w)) by apply Hwin.
  assert (Hdays : map date_utils.start_of_day days = days)
    by (apply dates_between_calendar_days, Hcal).
  destruct (date_window_span (fst w) (snd w) Hwin Hle) as [Hn Hend].
  fold n in Hn, Hend.
  split; [|split; [|split; [|split; [|split; [|split]]]]].
  - rewrite Hreq, Hdays. unfold days.
    now rewrite dates_between_window.
  - exact Hn.
  - apply add_days_0.
  - exact Hend.
  - rewrite Hreq, Hdays. apply dates_between_NoDup.
  - exact Hreq.
  - rewrite Hreq, Hdays. unfold days.
    rewrite dates_between_window by assumption.
    apply Forall_forall. intros d Hin. apply in_map_iff in Hin.
    destruct Hin as [k [<- _]]. now apply calendar_day_add_days.
Qed.

(** C5: a day the ring answers with [NoData] adds no row, is reported with
    the no-data line and not as an error, raises nothing, and the loop goes
    on with the next day. *)
Theorem nodata_day_adds_no_rows
    (d : datetime) (rest : list datetime) (rows : list row)
    (s s' : St c) (out : list event) :
  get_heart_rate_log c (date_utils.start_of_day d) s =
    (inr hrmod.NoData, s') ->
  hr_loop c isoformat sample_interval (d :: rest) rows (s, out) =
  hr_loop c isoformat sample_interval rest rows
    (s', out ++ [Print (MsgRequesting d);
                 HrLogRequest (date_utils.start_of_day d);
                 Print MsgNoDataForDate]) /\
  rows_of_day isoformat sample_interval (d, inr hrmod.NoData) = [].
Proof.
  intros H. split; [|reflexivity].
  rewrite hr_loop_step. rewrite H. cbn [fst snd].
  unfold rows_of_day, events_of_day. cbn [fst snd app].
  now rewrite app_nil_r.
Qed.

End Download.

(** ** The rows of a download *)

Lemma add_microseconds_twice (ts : datetime) (a b : Z) :
  datetime.add_microseconds (datetime.add_microseconds ts a) b =
  datetime.add_microseconds ts (a + b).
Proof.
  unfold datetime.add_microseconds. simpl. f_equal. lia.
Qed.

Lemma add_times_readings (interval : Z) (hrs : list Z) : forall ts,
  map fst (hrmod.add_times interval hrs ts) = hrs.
Proof.
  induction hrs as [|h hrs IH]; intros ts; simpl.
  - reflexivity.
  - now rewrite IH.
Qed.

(** The sample at position [k] is paired with the log's timestamp plus [k]
    intervals. *)
Lemma add_times_positions (interval : Z) (hrs : list Z) : forall ts,
  hrmod.add_times interval hrs ts =
  map (fun k => (nth k hrs 0,
                 datetime.add_microseconds ts (Z.of_nat k * interval)))
      (seq 0 (List.length hrs)).
Proof.
  induction hrs as [|h hrs IH]; intros ts.
  - reflexivity.
  - cbn [hrmod.add_times List.length seq map nth]. f_equal.
    + f_equal. destruct ts as [w z]. unfold datetime.add_microseconds.
      simpl. f_equal. lia.
    + rewrite IH, <- seq_shift, map_map. apply map_ext. intros k.
      cbn [nth]. f_equal. rewrite add_microseconds_twice. f_equal. lia.
Qed.

Section Rows.

Variable c : Client.
Variable isoformat : datetime -> string.
Variable sample_interval : Z.
Variable now : datetime.

Lemma rows_of_day_readings (dr : datetime * (exn + hrmod.result)) :
  map snd (rows_of_day isoformat sample_interval dr) = readings_of_day dr.
Proof.
  unfold rows_of_day, readings_of_day.
  destruct (snd dr) as [e | [log | ]]; try reflexivity.
  rewrite map_map. cbn [snd].
  unfold hrmod.heart_rates_with_times.
  rewrite <- (add_times_readings sample_interval (hrmod.heart_rates log)
                (hrmod.timestamp log)) at 2.
  reflexivity.
Qed.

Lemma rows_readings (rs : list (datetime * (exn + hrmod.result))) :
  map snd (flat_map (rows_of_day isoformat sample_interval) rs) =
  flat_map readings_of_day rs.
Proof.
  induction rs as [|dr rs IH]; simpl.
  - reflexivity.
  - rewrite map_app, rows_of_day_readings. f_equal. exact IH.
Qed.

Lemma rows_timestamps (rs : list (datetime * (exn + hrmod.result))) :
  Forall (fun r : row => exists ts, fst r = isoformat ts)
         (flat_map (rows_of_day isoformat sample_interval) rs).
Proof.
  apply Forall_forall. intros r Hin. apply in_flat_map in Hin.
  destruct Hin as [dr [_ Hin]]. unfold rows_of_day in Hin.
  destruct (snd dr) as [e | [log | ]]; try contradiction.
  apply in_map_iff in Hin. destruct Hin as [p [<- _]].
  now exists (snd p).
Qed.

(** C7: the rows handed out by a download that got through its window are
    pairs of an [isoformat] string and an integer reading, day after day in
    the order of the window and sample after sample in the order of the
    log; the readings are all the readings the ring delivered, the zero
    ones among them. *)
Theorem download_rows_in_order
    (address : string) (start end_ : option datetime)
    (csv_path : option string) (s0 s1 : St c) :
  let w := normalized_window now start end_ in
  let days := date_utils.dates_between (fst w) (snd w) in
  let rs := fst (responses c days s1) in
  let out := snd (snd (download_hr_logs c isoformat sample_interval now
                         address start end_ csv_path (s0, []))) in
  let rows := flat_map (rows_of_day isoformat sample_interval) rs in
  datetime.gt (fst w) (snd w) = false ->
  aenter c address s0 = (None, s1) ->
  Forall caught rs ->
  out = download_events isoformat sample_interval address rs csv_path /\
  (forall path, csv_path = Some path ->
     In (CsvWrite path
           (CsvHeader ["timestamp"%string; "heart_rate"%string]
              :: map CsvRow rows)) out) /\
  (csv_path = None -> In (Print (MsgTotal (List.length rows))) out) /\
  map snd rows = flat_map readings_of_day rs /\
  Forall (fun r : row => exists ts, fst r = isoformat ts) rows /\
  (forall d log,
     rows_of_day isoformat sample_interval (d, inr (hrmod.Log log)) =
     map (fun k =>
            (isoformat (datetime.add_microseconds (hrmod.timestamp log)
                          (Z.of_nat k * sample_interval)),
             nth k (hrmod.heart_rates log) 0))
         (seq 0 (List.length (hrmod.heart_rates log)))) /\
  (forall d log,
     In (d, inr (hrmod.Log log)) rs ->
     In 0 (hrmod.heart_rates log) -> In 0 (map snd rows)).
Proof.
  intros w days rs out rows Hle Hopen Hc.
  assert (Hout : out =
    download_events isoformat sample_interval address rs csv_path).
  { unfold out.
    rewrite (download_hr_logs_run c isoformat sample_interval now address
               start end_ csv_path s0 s1 []) by assumption.
    reflexivity. }
  split; [exact Hout|]. split; [|split; [|split; [|split; [|split]]]].
  - intros path ->. rewrite Hout. unfold download_events.
    apply in_or_app. right. apply in_or_app. right.
    apply in_or_app. right. simpl. auto.
  - intros ->. rewrite Hout. unfold download_events.
    apply in_or_app. right. apply in_or_app. right.
    apply in_or_app. right. simpl. auto.
  - apply rows_readings.
  - apply rows_timestamps.
  - intros d log. unfold rows_of_day. cbn [snd].
    unfold hrmod.heart_rates_with_times.
    rewrite add_times_positions, map_map. reflexivity.
  - intros d log Hin H0. unfold rows. rewrite rows_readings.
    apply in_flat_map. exists (d, inr (hrmod.Log log)). split; assumption.
Qed.

(** C6, as the code has it: a naive start or end is not rejected.  The
    download runs as it does on the same wall-clock values read as UTC, and
    [normalize_date_input] hands out the start of the day of the value made
    aware. *)
Theorem download_reads_naive_as_utc
    (fromisoformat strptime_ymd : string -> exn + datetime)
    (address : string) (start end_ : datetime)
    (csv_path : option string) (w0 : world c) :
  download_hr_logs c isoformat sample_interval now address
    (Some start) (Some end_) csv_path w0 =
  download_hr_logs c isoformat sample_interval now address
    (Some (make_aware start)) (Some (make_aware end_)) csv_path w0 /\
  datetime.is_naive (make_aware start) = false /\
  (datetime.is_naive start = true ->
   make_aware start = datetime.mk (datetime.wall start) (Some 0)) /\
  (forall str dt,
     fromisoformat str = inr dt ->
     normalize_date_input fromisoformat strptime_ymd (Some str) =
     inr (Some (date_utils.start_of_day (make_aware dt)))).
Proof.
  assert (Hidem : forall d, make_aware (make_aware d) = make_aware d).
  { intros [wl [off|]]; reflexivity. }
  split; [|split; [|split]].
  - unfold download_hr_logs, normalized_window, default_window.
    now rewrite !Hidem.
  - destruct start as [wl [off|]]; reflexivity.
  - destruct start as [wl [off|]]; [discriminate | reflexivity].
  - intros str dt H. unfold normalize_date_input. now rewrite H.
Qed.

End Rows.

(** ** Real-time collection *)

Section RealTime.

Variable c : Client.

Lemma filter_valid_spo2_range (l : list Z) :
  Forall (fun r => 50 <= r <= 100) (filter valid_spo2 l).
Proof.
  apply Forall_forall. intros r Hin. apply filter_In in Hin.
  destruct Hin as [_ Hv]. unfold valid_spo2 in Hv.
  apply andb_prop in Hv. destruct Hv as [_ Hv].
  apply andb_prop in Hv. destruct Hv as [Hlo Hhi].
  apply Z.leb_le in Hlo. apply Z.leb_le in Hhi. lia.
Qed.

(** What [collect_spo2] does once the connection is open and the ring has
    answered. *)
Lemma collect_spo2_run (address : string) (count max_tries : Z)
      (timeout : float) (s0 s1 s2 : St c) (out : list event)
      (answer : option (list Z)) :
  aenter c address s0 = (None, s1) ->
  get_realtime_reading c real_time.SPO2 s1 = (inr answer, s2) ->
  collect_spo2 c address count max_tries timeout (s0, out) =
  (inr (match answer with
        | None => []
        | Some l => filter valid_spo2 l
        end),
   (s2, out ++ [Connect address; RealTimeRequest real_time.SPO2;
                Disconnect])).
Proof.
  intros Hopen Hget.
  unfold collect_spo2, bind, with_client, call, ret. cbn [fst snd].
  rewrite Hopen. cbn [fst snd]. rewrite Hget.
  destruct answer as [l|]; cbn [fst snd app]; now rewrite <- !app_assoc.
Qed.

(** C8: a collection that ends without a valid sample is no error.  When
    the ring returns no readings, or only readings the filter drops,
    [collect_spo2] returns the empty list and [realtime_hr] returns
    normally without computing any statistics; how the empty outcome is
    reported is the caller's business: [main] of get_spo2.py prints its
    no-readings line. *)
Theorem empty_collection_is_not_an_error
    (address : string) (count max_tries : Z) (timeout : float)
    (s0 s1 : St c) (out : list event) :
  aenter c address s0 = (None, s1) ->
  (forall answer s2,
     get_realtime_reading c real_time.SPO2 s1 = (inr answer, s2) ->
     no_valid valid_spo2 answer ->
     collect_spo2 c address count max_tries timeout (s0, out) =
     (inr [], (s2, out ++ [Connect address;
                           RealTimeRequest real_time.SPO2; Disconnect])) /\
     spo2_main c address count (s0, out) =
     (inr tt, (s2, out ++ [Connect address;
                           RealTimeRequest real_time.SPO2; Disconnect;
                           Print MsgNoValidSpo2]))) /\
  (forall answer s2,
     get_realtime_reading c real_time.HEART_RATE s1 = (inr answer, s2) ->
     no_valid nonzero answer ->
     exists said,
       realtime_hr c address (s0, out) =
       (inr tt, (s2, out ++ [Connect address; Print MsgStarting;
                             RealTimeRequest real_time.HEART_RATE] ++
                     said ++ [Disconnect])) /\
       (said = [Print MsgNoReadings] \/
        exists l, said = [Print (MsgRawReadings l); Print MsgNoNonZero])).
Proof.
  intros Hopen. split.
  - intros answer s2 Hget Hnone.
    assert (Hrun := collect_spo2_run address count max_tries timeout
                      s0 s1 s2 out answer Hopen Hget).
    assert (Hrun' := collect_spo2_run address count 20 2%float
                       s0 s1 s2 out answer Hopen Hget).
    assert (Hempty : match answer with
                     | None => []
                     | Some l => filter valid_spo2 l
                     end = []).
    { destruct answer as [l|]; [exact Hnone | reflexivity]. }
    rewrite Hempty in Hrun, Hrun'. split; [exact Hrun|].
    unfold spo2_main, bind, attempt. rewrite Hrun'.
    unfold summarize, print, emit, ret. cbn [fst snd].
    now rewrite <- app_assoc.
  - intros answer s2 Hget Hnone.
    unfold realtime_hr, bind, with_client, call, print, emit, ret.
    cbn [fst snd]. rewrite Hopen. cbn [fst snd]. rewrite Hget.
    destruct answer as [[|r l]|].
    + exists [Print MsgNoReadings]. split; [|now left].
      cbn [fst snd]. now rewrite <- !app_assoc.
    + exists [Print (MsgRawReadings (r :: l)); Print MsgNoNonZero].
      split; [|right; now exists (r :: l)].
      unfold no_valid in Hnone. rewrite Hnone.
      cbn [fst snd]. now rewrite <- !app_assoc.
    + exists [Print MsgNoReadings]. split; [|now left].
      cbn [fst snd]. now rewrite <- !app_assoc.
Qed.

(** C9: whatever the ring delivers, every reading [collect_spo2] returns
    lies between 50 and 100; zero is never among them. *)
Theorem collect_spo2_in_range
    (address : string) (count max_tries : Z) (timeout : float)
    (w : world c) (l : list Z) :
  fst (collect_spo2 c address count max_tries timeout w) = inr l ->
  Forall (fun r => 50 <= r <= 100) l /\ ~ In 0 l.
Proof.
  intros H.
  assert (Hrange : Forall (fun r => 50 <= r <= 100) l).
  { revert H.
    unfold collect_spo2, bind, with_client, call, ret. cbn [fst snd].
    destruct (aenter c address (fst w)) as [[e|] s1]; cbn [fst snd].
    - discriminate.
    - destruct (get_realtime_reading c real_time.SPO2 s1)
        as [[e | [readings|]] s2]; cbn [fst snd].
      + discriminate.
      + intros H. injection H as <-. apply filter_valid_spo2_range.
      + intros H. injection H as <-. constructor. }
  split; [exact Hrange|].
  intros Hin. rewrite Forall_forall in Hrange.
  specialize (Hrange 0 Hin). lia.
Qed.

(** C10: [count], [max_tries] and [timeout] do not reach the result.  Two
    calls that differ only in them behave alike, in [collect_spo2] and in
    [main]; and once the ring has answered, every valid reading of the
    answer is returned, however many [count] asked for. *)
Theorem collect_spo2_ignores_its_limits
    (address : string) (count count' max_tries max_tries' : Z)
    (timeout timeout' : float) (w : world c) :
  collect_spo2 c address count max_tries timeout w =
  collect_spo2 c address count' max_tries' timeout' w /\
  spo2_main c address count w = spo2_main c address count' w /\
  (forall s1 s2 readings,
     aenter c address (fst w) = (None, s1) ->
     get_realtime_reading c real_time.SPO2 s1 = (inr (Some readings), s2) ->
     fst (collect_spo2 c address count max_tries timeout w) =
     inr (filter valid_spo2 readings)).
Proof.
  split; [reflexivity|]. split; [reflexivity|].
  intros s1 s2 readings Hopen Hget. destruct w as [s0 out].
  now rewrite (collect_spo2_run address count max_tries timeout
                 s0 s1 s2 out (Some readings) Hopen Hget).
Qed.

End RealTime.

(** ** The no-data sentinel of the log parsers *)

Lemma checksum_range (p : list Z) : 0 <= packet.checksum p < 256.
Proof. unfold packet.checksum. apply Z.mod_pos_bound. lia. Qed.

Lemma setitem_last (p : list Z) (v : Z) :
  List.length p = 16%nat -> 0 <= v < 256 ->
  packet.setitem p (-1) v = inr (firstn 15 p ++ [v]).
Proof.
  intros Hlen Hv. unfold packet.setitem. rewrite Hlen.
  change (if -1 <? 0 then -1 + Z.of_nat 16 else -1) with 15.
  change ((15 <? 0) || (Z.of_nat 16 <=? 15)) with false. cbv iota.
  destruct (Z.ltb_spec v 0); [lia|].
  destruct (Z.leb_spec 256 v); [lia|]. cbn [orb].
  change (Z.to_nat 15) with 15%nat.
  rewrite (skipn_all2 p) by (rewrite Hlen; apply Nat.le_refl).
  reflexivity.
Qed.

(** The packet of the two demos, for a command in [range(256)]. *)
Lemma nodata_packet_bytes (cmd : Z) :
  0 <= cmd < 256 ->
  nodata_packet cmd =
  inr ([cmd; 255; 0; 0; 0; 0; 0; 0; 0; 0; 0; 0; 0; 0; 0]
         ++ [(cmd + 255) mod 256]).
Proof.
  intros Hc. unfold nodata_packet.
  assert (H0 : packet.setitem (packet.bytearray 16) 0 cmd =
               inr (cmd :: repeat 0 15)).
  { unfold packet.setitem.
    change (Z.of_nat (List.length (packet.bytearray 16))) with 16.
    change (if 0 <? 0 then 0 + 16 else 0) with 0.
    change ((0 <? 0) || (16 <=? 0)) with false. cbv iota.
    destruct (Z.ltb_spec cmd 0); [lia|].
    destruct (Z.leb_spec 256 cmd); [lia|]. reflexivity. }
  rewrite H0. cbv iota beta.
  change (packet.setitem (cmd :: repeat 0 15) 1 255)
    with (@inr exn _ (cmd :: 255 :: repeat 0 14)).
  cbv iota beta.
  rewrite setitem_last by (try reflexivity; apply checksum_range).
  reflexivity.
Qed.

(** C3: a first frame whose subtype is 255 makes the request's result
    [NoData], for every layout and every command byte, whatever frames
    follow; the packets the demo builds for the heart-rate and for the
    step-detail command are such frames, with a matching checksum, and
    both parsers answer [NoData]. *)
Theorem sentinel_subtype_yields_NoData
    (l hr_layout steps_layout : LogRecordParser.layout)
    (frame : list Z) (rest : list (list Z))
    (CMD_READ_HEART_RATE CMD_GET_STEP_SOMEDAY : Z) :
  (packet.subtype frame = 255 ->
   LogRecordParser.parse l LogRecordParser.AwaitingFirst frame =
     (LogRecordParser.NoDataTerminal, Some LogRecordParser.NoData) /\
   LogRecordParser.request l (frame :: rest) = LogRecordParser.NoData) /\
  (0 <= CMD_READ_HEART_RATE < 256 ->
   exists p,
     demo_hr_nodata CMD_READ_HEART_RATE hr_layout =
       inr (p, Some LogRecordParser.NoData) /\
     packet.command p = CMD_READ_HEART_RATE /\ packet.subtype p = 255 /\
     packet.valid p = true) /\
  (0 <= CMD_GET_STEP_SOMEDAY < 256 ->
   exists p,
     demo_steps_nodata CMD_GET_STEP_SOMEDAY steps_layout =
       inr (p, Some LogRecordParser.NoData) /\
     packet.command p = CMD_GET_STEP_SOMEDAY /\ packet.subtype p = 255 /\
     packet.valid p = true).
Proof.
  assert (Hdemo : forall cmd, 0 <= cmd < 256 ->
    let p := [cmd; 255; 0; 0; 0; 0; 0; 0; 0; 0; 0; 0; 0; 0; 0]
               ++ [(cmd + 255) mod 256] in
    packet.command p = cmd /\ packet.subtype p = 255 /\
    packet.valid p = true).
  { intros cmd Hc p. split; [reflexivity|]. split; [reflexivity|].
    unfold packet.valid, packet.checksum, p.
    cbn [app List.length Nat.eqb andb nth firstn fold_right].
    apply Z.eqb_eq. reflexivity. }
  split; [|split].
  - intros H. unfold LogRecordParser.request. cbn [LogRecordParser.run].
    unfold LogRecordParser.parse. rewrite H. split; reflexivity.
  - intros Hc. eexists. unfold demo_hr_nodata.
    rewrite nodata_packet_bytes by assumption.
    split; [reflexivity|]. apply Hdemo, Hc.
  - intros Hc. eexists. unfold demo_steps_nodata.
    rewrite nodata_packet_bytes by assumption.
    split; [reflexivity|]. apply Hdemo, Hc.
Qed.

(** ** The scripts on a ring *)

(** The window 2025-11-01 .. 2025-11-12 has twelve days, a day apart, the
    ends among them. *)
Example dates_between_november :
  List.length (date_utils.dates_between Ring.nov1 Ring.nov12) = 12%nat /\
  hd_error (date_utils.dates_between Ring.nov1 Ring.nov12) = Some Ring.nov1 /\
  last (date_utils.dates_between Ring.nov1 Ring.nov12) Ring.nov1 = Ring.nov12.
Proof. vm_compute. repeat split. Qed.

(** Three days, the second fails: the rows of the first are written, the
    third is still asked for. *)
Example download_three_days :
  download_hr_logs Ring.idle Ring.iso Ring.five_minutes Ring.nov12
    Ring.address (Some Ring.nov1) (Some Ring.nov3) (Some "hr.csv"%string)
    (Ring.three_days, []) =
  (inr tt,
   ([],
    [Connect Ring.address;
     Print (MsgRequesting Ring.nov1); HrLogRequest Ring.nov1;
     Print (MsgReceived 3 5 Ring.nov1);
     Print (MsgRequesting Ring.nov2); HrLogRequest Ring.nov2;
     Print (MsgErrorFetching Ring.nov2 Ring.timed_out);
     Print (MsgRequesting Ring.nov3); HrLogRequest Ring.nov3;
     Print MsgNoDataForDate;
     Disconnect;
     CsvWrite "hr.csv"
       [CsvHeader ["timestamp"%string; "heart_rate"%string];
        CsvRow ("t"%string, 61); CsvRow ("t"%string, 0);
        CsvRow ("t"%string, 64)];
     Print (MsgWritten 3 "hr.csv")])).
Proof. vm_compute. reflexivity. Qed.

(** A cancellation is not an [Exception]: it ends the download, after the
    connection is closed. *)
Example download_cancelled :
  download_hr_logs Ring.idle Ring.iso Ring.five_minutes Ring.nov12
    Ring.address (Some Ring.nov1) (Some Ring.nov3) None
    ([inl (mk_exn CancelledError "")], []) =
  (inl (mk_exn CancelledError ""),
   ([],
    [Connect Ring.address;
     Print (MsgRequesting Ring.nov1); HrLogRequest Ring.nov1;
     Disconnect])).
Proof. vm_compute. reflexivity. Qed.

Lemma download_continues_after_failed_day_witness :
  let run := download_hr_logs Ring.idle Ring.iso Ring.five_minutes Ring.nov12
               Ring.address (Some Ring.nov1) (Some Ring.nov3) None
               (Ring.three_days, []) in
  fst run = inr tt /\
  hr_requests (snd (snd run)) = [Ring.nov1; Ring.nov2; Ring.nov3] /\
  In (Print (MsgErrorFetching Ring.nov2 Ring.timed_out)) (snd (snd run)).
Proof.
  intros run.
  assert (Hle : datetime.gt Ring.nov1 Ring.nov3 = false)
    by (vm_compute; reflexivity).
  assert (Hc : Forall caught
                 (fst (responses Ring.idle
                         (date_utils.dates_between Ring.nov1 Ring.nov3)
                         Ring.three_days)))
    by (vm_compute; repeat constructor).
  destruct (download_continues_after_failed_day Ring.idle Ring.iso
              Ring.five_minutes Ring.nov12 Ring.address
              (Some Ring.nov1) (Some Ring.nov3) None
              Ring.three_days Ring.three_days)
    as [_ Hdownload].
  destruct (Hdownload Hle eq_refl Hc) as (Hok & Hreq & _ & Hday).
  split; [exact Hok|]. split; [exact Hreq|].
  assert (E : fst (responses Ring.idle
                     (date_utils.dates_between Ring.nov1 Ring.nov3)
                     Ring.three_days) =
              [(Ring.nov1, inr (hrmod.Log Ring.log1))]
                ++ (Ring.nov2, inl Ring.timed_out)
                :: [(Ring.nov3, inr hrmod.NoData)])
    by (vm_compute; reflexivity).
  destruct (Hday _ _ _ _ E) as [Hin _]. exact Hin.
Defined.

Lemma download_rejects_reversed_window_witness :
  download_hr_logs Ring.idle Ring.iso Ring.five_minutes Ring.nov12
    Ring.address (Some Ring.nov3) (Some Ring.nov1) None
    (Ring.three_days, []) =
  (inl (mk_exn ValueError "start must be <= end"), (Ring.three_days, [])).
Proof.
  apply (download_rejects_reversed_window Ring.idle Ring.iso
           Ring.five_minutes Ring.nov12 Ring.address
           (Some Ring.nov3) (Some Ring.nov1) None (Ring.three_days, [])).
  reflexivity.
Defined.

Lemma download_requests_each_day_once_witness :
  hr_requests
    (snd (snd (download_hr_logs Ring.idle Ring.iso Ring.five_minutes
                 Ring.nov12 Ring.address (Some Ring.nov1) (Some Ring.nov3)
                 None (Ring.three_days, [])))) =
  [Ring.nov1; Ring.nov2; Ring.nov3].
Proof.
  destruct (download_requests_each_day_once Ring.idle Ring.iso
              Ring.five_minutes Ring.nov12 Ring.address
              (Some Ring.nov1) (Some Ring.nov3) None
              Ring.three_days Ring.three_days)
    as (Hreq & _).
  - vm_compute. repeat split.
  - reflexivity.
  - reflexivity.
  - vm_compute. repeat constructor.
  - exact Hreq.
Defined.

Lemma nodata_day_adds_no_rows_witness :
  hr_loop Ring.idle Ring.iso Ring.five_minutes [Ring.nov3]
    [("t"%string, 61)] ([inr hrmod.NoData], []) =
  (inr [("t"%string, 61)],
   ([], [Print (MsgRequesting Ring.nov3); HrLogRequest Ring.nov3;
         Print MsgNoDataForDate])).
Proof.
  destruct (nodata_day_adds_no_rows Ring.idle Ring.iso Ring.five_minutes
              Ring.nov3 [] [("t"%string, 61)] [inr hrmod.NoData] [] [])
    as [Hstep _].
  - reflexivity.
  - etransitivity; [exact Hstep | reflexivity].
Defined.

Lemma download_rows_in_order_witness :
  In (CsvWrite "hr.csv"
        [CsvHeader ["timestamp"%string; "heart_rate"%string];
         CsvRow ("t"%string, 61); CsvRow ("t"%string, 0);
         CsvRow ("t"%string, 64)])
     (snd (snd (download_hr_logs Ring.idle Ring.iso Ring.five_minutes
                  Ring.nov12 Ring.address (Some Ring.nov1) (Some Ring.nov3)
                  (Some "hr.csv"%string) (Ring.three_days, [])))).
Proof.
  destruct (download_rows_in_order Ring.idle Ring.iso
              Ring.five_minutes Ring.nov12 Ring.address
              (Some Ring.nov1) (Some Ring.nov3) (Some "hr.csv"%string)
              Ring.three_days Ring.three_days)
    as (_ & Hcsv & _).
  - reflexivity.
  - reflexivity.
  - vm_compute. repeat constructor.
  - exact (Hcsv "hr.csv"%string eq_refl).
Defined.

(** C6, as stated, fails: a naive start and end are given, no error is
    raised, and the day is requested from the ring. *)
Lemma naive_window_is_not_rejected :
  let run := download_hr_logs Ring.idle Ring.iso Ring.five_minutes Ring.nov12
               Ring.address (Some Ring.nov1_naive) (Some Ring.nov1_naive) None
               (Ring.three_days, []) in
  datetime.is_naive Ring.nov1_naive = true /\
  (forall e, fst run <> inl e) /\
  hr_requests (snd (snd run)) = [Ring.nov1].
Proof.
  vm_compute. split; [reflexivity|]. split; [|reflexivity].
  intros e H. discriminate H.
Qed.

Lemma download_reads_naive_as_utc_witness :
  make_aware Ring.nov1_naive = Ring.nov1 /\
  download_hr_logs Ring.idle Ring.iso Ring.five_minutes Ring.nov12
    Ring.address (Some Ring.nov1_naive) (Some Ring.nov1_naive) None
    (Ring.three_days, []) =
  download_hr_logs Ring.idle Ring.iso Ring.five_minutes Ring.nov12
    Ring.address (Some Ring.nov1) (Some Ring.nov1) None
    (Ring.three_days, []).
Proof.
  destruct (download_reads_naive_as_utc Ring.idle Ring.iso
              Ring.five_minutes Ring.nov12
              (fun _ => inr Ring.nov1_naive) (fun _ => inr Ring.nov1_naive)
              Ring.address Ring.nov1_naive Ring.nov1_naive None
              (Ring.three_days, []))
    as (Hrun & _ & Hutc & _).
  split.
  - exact (Hutc eq_refl).
  - exact Hrun.
Defined.

Lemma empty_collection_is_not_an_error_witness :
  collect_spo2 Ring.idle Ring.address 6 20 2%float ([], []) =
  (inr [], ([], [Connect Ring.address; RealTimeRequest real_time.SPO2;
                 Disconnect])) /\
  fst (realtime_hr Ring.idle Ring.address ([], [])) = inr tt.
Proof.
  destruct (empty_collection_is_not_an_error Ring.idle Ring.address 6 20
              2%float [] [] [] eq_refl) as [Hspo2 Hhr].
  split.
  - apply (Hspo2 (Some [0; 0; 0]) []); reflexivity.
  - destruct (Hhr (Some [0; 0; 0]) []) as [said [Hrun _]];
      [reflexivity | reflexivity |].
    exact (f_equal fst Hrun).
Defined.

Lemma collect_spo2_in_range_witness :
  Forall (fun r => 50 <= r <= 100) [97; 98; 99] /\ ~ In 0 [97; 98; 99].
Proof.
  apply (collect_spo2_in_range Ring.worn Ring.address 6 20 2%float ([], [])).
  reflexivity.
Defined.

(** One valid reading is asked for; the three valid ones are returned. *)
Lemma collect_spo2_ignores_its_limits_witness :
  fst (collect_spo2 Ring.worn Ring.address 1 20 2%float ([], [])) =
  inr [97; 98; 99].
Proof.
  destruct (collect_spo2_ignores_its_limits Ring.worn Ring.address
              1 6 20 20 2%float 2%float ([], [])) as (_ & _ & Hall).
  apply (Hall [] [] [97; 0; 120; 98; 30; 99]); reflexivity.
Defined.

Lemma sentinel_subtype_yields_NoData_witness :
  LogRecordParser.request Ring.plain_layout [Ring.nodata_frame] =
    LogRecordParser.NoData /\
  demo_hr_nodata 21 Ring.plain_layout =
    inr (Ring.nodata_frame, Some LogRecordParser.NoData).
Proof.
  destruct (sentinel_subtype_yields_NoData Ring.plain_layout
              Ring.plain_layout Ring.plain_layout Ring.nodata_frame [] 21 67)
    as (Hfirst & Hhr & _).
  split.
  - apply Hfirst. reflexivity.
  - destruct Hhr as [p [Hp _]]; [lia|].
    rewrite Hp. vm_compute in Hp. injection Hp as <-. reflexivity.
Defined.


(** * More of the scripts *)

(** ** The download when the ring fails it *)

Section DownloadEdges.

Variable c : Client.
Variable isoformat : datetime -> string.
Variable sample_interval : Z.
Variable now : datetime.

(** The loop through a first stretch of days whose failures are all caught. *)
Lemma hr_loop_through (before : list datetime) : forall rest rows s out,
  Forall caught (fst (responses c before s)) ->
  hr_loop c isoformat sample_interval (before ++ rest) rows (s, out) =
  hr_loop c isoformat sample_interval rest
    (rows ++ flat_map (rows_of_day isoformat sample_interval)
                      (fst (responses c before s)))
    (snd (responses c before s),
     out ++ flat_map events_of_day (fst (responses c before s))).
Proof.
  induction before as [|d before IH]; intros rest rows s out Hc.
  - simpl. now rewrite !app_nil_r.
  - rewrite <- app_comm_cons, hr_loop_step. rewrite responses_cons in *.
    cbn [fst snd] in *. inversion Hc as [|x l Hd Hrest]; subst.
    unfold caught in Hd. cbn [snd] in Hd. cbn [flat_map].
    destruct (fst (get_heart_rate_log c (date_utils.start_of_day d) s))
      as [e | r] eqn:Ha.
    + rewrite Hd. rewrite IH by assumption.
      unfold rows_of_day at 2. cbn [snd]. cbn [app].
      now rewrite <- app_assoc.
    + rewrite IH by assumption. now rewrite <- !app_assoc.
Qed.

(** X1: when the connection cannot be opened the download raises the
    connection's exception, whatever its class; the only event is the
    attempt to connect: no day is requested, nothing is printed and no file
    is written. *)
Theorem download_unreachable_ring
    (address : string) (start end_ : option datetime)
    (csv_path : option string) (s0 s1 : St c) (out : list event) (e : exn) :
  let w := normalized_window now start end_ in
  datetime.gt (fst w) (snd w) = false ->
  aenter c address s0 = (Some e, s1) ->
  download_hr_logs c isoformat sample_interval now address start end_
    csv_path (s0, out) =
  (inl e, (s1, out ++ [Connect address])).
Proof.
  intros w Hle Hopen. unfold download_hr_logs. fold w.
  destruct w as [st en]. cbn [fst snd] in Hle. rewrite Hle.
  unfold bind, with_client. cbn [fst snd]. now rewrite Hopen.
Qed.

(** X2: an exception that is not of class [Exception] (a cancellation, a
    keyboard interrupt) raised by a day's fetch ends the download there: the
    connection is closed, the exception goes on to the caller, the later
    days are not requested, and the rows of the earlier days are neither
    written to the file nor summarized. *)
Theorem download_aborts_on_cancellation
    (address : string) (start end_ : option datetime)
    (csv_path : option string) (s0 s1 s2 : St c) (out : list event)
    (before after : list datetime) (d : datetime) (e : exn) :
  let w := normalized_window now start end_ in
  let rs := fst (responses c before s1) in
  datetime.gt (fst w) (snd w) = false ->
  aenter c address s0 = (None, s1) ->
  date_utils.dates_between (fst w) (snd w) = before ++ d :: after ->
  Forall caught rs ->
  get_heart_rate_log c (date_utils.start_of_day d)
    (snd (responses c before s1)) = (inl e, s2) ->
  is_Exception e = false ->
  download_hr_logs c isoformat sample_interval now address start end_
    csv_path (s0, out) =
  (inl e,
   (s2, out ++ [Connect address] ++ flat_map events_of_day rs ++
        [Print (MsgRequesting d);
         HrLogRequest (date_utils.start_of_day d); Disconnect])).
Proof.
  intros w rs Hle Hopen Hdays Hc Hget He. unfold download_hr_logs. fold w.
  destruct w as [st en]. cbn [fst snd] in *. rewrite Hle.
  unfold bind at 1. unfold with_client. cbn [fst snd]. rewrite Hopen.
  rewrite Hdays, hr_loop_through by assumption.
  rewrite hr_loop_step. rewrite Hget. cbn [fst snd]. rewrite He.
  cbn [fst snd]. fold rs. rewrite <- !app_assoc. reflexivity.
Qed.

(** The loop never raises an [Exception], keeps the rows it was given in
    front of those it adds, and requests a first stretch of the days, in
    order, each at most once: all of them when it returns. *)
Lemma hr_loop_shape (days : list datetime) : forall rows s out,
  exists k new,
    (k <= List.length days)%nat /\
    snd (snd (hr_loop c isoformat sample_interval days rows (s, out))) =
      out ++ new /\
    hr_requests new = map date_utils.start_of_day (firstn k days) /\
    match fst (hr_loop c isoformat sample_interval days rows (s, out)) with
    | inr rows' => k = List.length days /\ exists more, rows' = rows ++ more
    | inl e => is_Exception e = false
    end.
Proof.
  induction days as [|d rest IH]; intros rows s out.
  - exists 0%nat, []. simpl. rewrite app_nil_r.
    repeat split; auto. exists []. now rewrite app_nil_r.
  - rewrite hr_loop_step. cbv zeta.
    destruct (get_heart_rate_log c (date_utils.start_of_day d) s)
      as [a s'] eqn:Hget. cbn [fst snd].
    assert (Hev : hr_requests (events_of_day (d, a)) =
                  [date_utils.start_of_day d]).
    { destruct a as [e | [lg | ]]; reflexivity. }
    destruct a as [e | r].
    + destruct (is_Exception e) eqn:He.
      * destruct (IH rows s' (out ++ events_of_day (d, inl e)))
          as (k & new & Hk & Hout & Hreq & Hres).
        exists (S k), (events_of_day (d, inl e) ++ new).
        split; [simpl; lia|]. split; [now rewrite Hout, <- app_assoc|].
        split; [now rewrite hr_requests_app, Hev, Hreq|].
        destruct (fst (hr_loop c isoformat sample_interval rest rows _)).
        -- exact Hres.
        -- destruct Hres as [-> Hmore]. split; [reflexivity | exact Hmore].
      * exists 1%nat, [Print (MsgRequesting d);
                       HrLogRequest (date_utils.start_of_day d)].
        cbn [fst snd]. split; [simpl; lia|]. split; [reflexivity|].
        split; [reflexivity | exact He].
    + destruct (IH (rows ++ rows_of_day isoformat sample_interval (d, inr r))
                  s' (out ++ events_of_day (d, inr r)))
        as (k & new & Hk & Hout & Hreq & Hres).
      exists (S k), (events_of_day (d, inr r) ++ new).
      split; [simpl; lia|]. split; [now rewrite Hout, <- app_assoc|].
      split; [now rewrite hr_requests_app, Hev, Hreq|].
      destruct (fst (hr_loop c isoformat sample_interval rest _ _)).
      * exact Hres.
      * destruct Hres as [-> [more ->]]. split; [reflexivity|].
        exists (rows_of_day isoformat sample_interval (d, inr r) ++ more).
        now rewrite app_assoc.
Qed.

(** X3: whatever the ring does, the loop requests the days in the order
    of the window, none twice and none out of turn: the targets requested
    are the starts of a first stretch of the days.  When the loop returns
    it has requested every day and its rows begin with the rows it was
    given; when it raises, the exception is not of class [Exception]. *)
Theorem hr_loop_requests_in_order
    (days : list datetime) (rows : list row) (s : St c) :
  let run := hr_loop c isoformat sample_interval days rows (s, []) in
  exists k,
    (k <= List.length days)%nat /\
    hr_requests (snd (snd run)) =
      map date_utils.start_of_day (firstn k days) /\
    (forall rows', fst run = inr rows' ->
       k = List.length days /\ exists more, rows' = rows ++ more) /\
    (forall e, fst run = inl e -> is_Exception e = false).
Proof.
  intros run.
  destruct (hr_loop_shape days rows s [])
    as (k & new & Hk & Hout & Hreq & Hres).
  fold run in Hout, Hres. exists k. split; [exact Hk|].
  split; [now rewrite Hout|]. split.
  - intros rows' E. now rewrite E in Hres.
  - intros e E. now rewrite E in Hres.
Qed.

(** X4: with at most one end of the window given, the window is a single
    day: the day given, or the start of today when none is.  Start <= end
    holds, so no ValueError is raised, and once the connection is open
    exactly one log is requested, for the start of that day. *)
Theorem download_single_day
    (address : string) (start end_ : option datetime)
    (csv_path : option string) (s0 s1 : St c) :
  let day := fst (normalized_window now start end_) in
  let run := download_hr_logs c isoformat sample_interval now address
               start end_ csv_path (s0, []) in
  start = None \/ end_ = None ->
  aenter c address s0 = (None, s1) ->
  snd (normalized_window now start end_) = day /\
  day = make_aware
          (match start, end_ with
           | Some d, _ | None, Some d => d
           | None, None => date_utils.start_of_day now
           end) /\
  hr_requests (snd (snd run)) = [date_utils.start_of_day day] /\
  (forall e, fst run = inl e -> is_Exception e = false).
Proof.
  intros day run Hone Hopen.
  assert (Hsame : normalized_window now start end_ = (day, day)).
  { unfold day, normalized_window, default_window.
    destruct start as [x|], end_ as [y|]; try reflexivity.
    destruct Hone; discriminate. }
  assert (Hle : datetime.gt day day = false).
  { unfold datetime.gt. apply Z.ltb_irrefl. }
  assert (Hdays : date_utils.dates_between day day = [day]).
  { unfold date_utils.dates_between, datetime.le.
    rewrite Z.leb_refl, Z.sub_diag. cbn [map seq Z.to_nat].
    change (Z.to_nat (0 / datetime.microseconds_per_day + 1)) with 1%nat.
    cbn [seq map]. now rewrite add_days_0. }
  split; [now rewrite Hsame|]. split.
  { unfold day, normalized_window, default_window.
    destruct start as [x|], end_ as [y|]; reflexivity. }
  assert (Hrun : run =
    let '(res, w') := hr_loop c isoformat sample_interval [day] []
                        (s1, [Connect address]) in
    match res with
    | inl e => (inl e, (fst w', snd w' ++ [Disconnect]))
    | inr rows => report c rows csv_path (fst w', snd w' ++ [Disconnect])
    end).
  { unfold run, download_hr_logs. rewrite Hsame, Hle.
    unfold bind at 1. unfold with_client. cbn [fst snd]. rewrite Hopen.
    rewrite Hdays. cbn [app].
    destruct (hr_loop c isoformat sample_interval [day] []
                (s1, [Connect address])) as [[e|rows] w']; reflexivity. }
  destruct (hr_loop_shape [day] [] s1 [Connect address])
    as (k & new & Hk & Hout & Hreq & Hres).
  assert (Hk1 : k = 1%nat).
  { destruct k as [|[|k]]; [|reflexivity|simpl in Hk; lia].
    exfalso. revert Hout. rewrite hr_loop_step. cbv zeta.
    destruct (get_heart_rate_log c (date_utils.start_of_day day) s1)
      as [[e | [lg | ]] s']; cbn [fst snd]; simpl in Hreq;
      try destruct (is_Exception e); cbn [hr_loop ret fst snd];
      unfold bind, print, emit, ret; cbn [fst snd];
      intros Hout; apply app_inv_head in Hout; subst new;
      cbn in Hreq; discriminate Hreq. }
  subst k. cbn [firstn map] in Hreq.
  destruct (hr_loop c isoformat sample_interval [day] []
              (s1, [Connect address])) as [[e|rows] [s' o]] eqn:Hloop;
    cbn [fst snd] in *; subst o.
  - rewrite Hrun. cbn [fst snd]. split.
    + rewrite !hr_requests_app, Hreq. reflexivity.
    + intros e' E. injection E as <-. exact Hres.
  - rewrite Hrun, report_run. cbn [fst snd]. split.
    + rewrite !hr_requests_app, Hreq, hr_requests_report. reflexivity.
    + intros e' E. discriminate E.
Qed.

End DownloadEdges.

(** ** The report of a download *)

Section Reports.

Variable c : Client.

Lemma filter_nonzero_no_zero (l : list Z) : ~ In 0 (filter nonzero l).
Proof.
  intros Hin. apply filter_In in Hin. destruct Hin as [_ H].
  discriminate H.
Qed.

(** X5: handing the rows out never fails, also with no row or with only
    zero readings.  With a path the file gets the header and one line per
    row, in order.  Without a path the total is printed, then nothing more
    when there is no row, the all-zero line when every reading is zero, and
    otherwise the statistics of the non-zero readings only. *)
Theorem report_never_fails
    (rows : list row) (csv_path : option string) (s : St c) :
  let run := report c rows csv_path (s, []) in
  let values := filter nonzero (map snd rows) in
  fst run = inr tt /\
  (forall path, csv_path = Some path ->
     snd (snd run) =
     [CsvWrite path (CsvHeader ["timestamp"%string; "heart_rate"%string]
                       :: map CsvRow rows);
      Print (MsgWritten (List.length rows) path)]) /\
  (csv_path = None ->
   exists said,
     snd (snd run) = Print (MsgTotal (List.length rows)) :: said /\
     (rows = [] -> said = []) /\
     (rows <> [] -> values = [] -> said = [Print MsgAllZero]) /\
     (values <> [] -> said = [Print (MsgSummary values)] /\ ~ In 0 values)).
Proof.
  intros run values. unfold run. rewrite report_run. cbn [fst snd app].
  split; [reflexivity|]. split.
  - intros path ->. reflexivity.
  - intros ->. unfold report_events.
    destruct rows as [|r rows'] eqn:Hrows.
    + exists []. split; [reflexivity|]. split; [reflexivity|].
      split; [intros H; now elim H|]. intros H. now elim H.
    + fold values.
      destruct values as [|v vs] eqn:Hv.
      * exists [Print MsgAllZero]. split; [reflexivity|].
        split; [discriminate|]. split; [reflexivity|].
        intros H. now elim H.
      * exists [Print (MsgSummary (v :: vs))]. split; [reflexivity|].
        split; [discriminate|]. split; [discriminate|].
        intros _. split; [reflexivity|].
        rewrite <- Hv. apply filter_nonzero_no_zero.
Qed.

End Reports.

(** ** Real-time readings that succeed, and that fail *)

Section RealTimeEdges.

Variable c : Client.

(** X6: once the connection is open and the ring has answered,
    [realtime_hr] returns normally whatever the answer; when the answer has
    a non-zero reading, the raw readings are printed as received and the
    statistics are those of the non-zero readings, in their order. *)
Theorem realtime_hr_reports_nonzero
    (address : string) (s0 s1 s2 : St c) (out : list event)
    (answer : option (list Z)) :
  aenter c address s0 = (None, s1) ->
  get_realtime_reading c real_time.HEART_RATE s1 = (inr answer, s2) ->
  fst (realtime_hr c address (s0, out)) = inr tt /\
  (forall readings,
     answer = Some readings -> filter nonzero readings <> [] ->
     realtime_hr c address (s0, out) =
     (inr tt,
      (s2, out ++ [Connect address; Print MsgStarting;
                   RealTimeRequest real_time.HEART_RATE;
                   Print (MsgRawReadings readings);
                   Print (MsgSummary (filter nonzero readings));
                   Disconnect]))).
Proof.
  intros Hopen Hget.
  assert (Hrun : forall readings, answer = Some readings ->
            filter nonzero readings <> [] ->
            realtime_hr c address (s0, out) =
            (inr tt,
             (s2, out ++ [Connect address; Print MsgStarting;
                          RealTimeRequest real_time.HEART_RATE;
                          Print (MsgRawReadings readings);
                          Print (MsgSummary (filter nonzero readings));
                          Disconnect]))).
  { intros readings -> Hne.
    unfold realtime_hr, bind, with_client, call, print, emit, ret.
    cbn [fst snd]. rewrite Hopen. cbn [fst snd]. rewrite Hget.
    destruct readings as [|r l]; [now elim Hne|].
    destruct (filter nonzero (r :: l)) as [|v vs] eqn:Hv; [now elim Hne|].
    unfold summary_line, print, emit. cbn [fst snd].
    now rewrite <- !app_assoc. }
  split; [|exact Hrun].
  destruct answer as [readings|].
  - destruct (filter nonzero readings) as [|v vs] eqn:Hv.
    + unfold realtime_hr, bind, with_client, call, print, emit, ret.
      cbn [fst snd]. rewrite Hopen. cbn [fst snd]. rewrite Hget.
      destruct readings as [|r l]; [reflexivity|]. now rewrite Hv.
    + rewrite (Hrun readings eq_refl); [reflexivity|].
      rewrite Hv. discriminate.
  - unfold realtime_hr, bind, with_client, call, print, emit, ret.
    cbn [fst snd]. rewrite Hopen. cbn [fst snd]. now rewrite Hget.
Qed.

(** X7: neither [realtime_hr] nor [collect_spo2] catches what the client
    raises.  An exception of the real-time request goes on to the caller
    after the connection is closed, and nothing more is printed; an
    exception of the connection goes on at once. *)
Theorem realtime_failure_propagates
    (address : string) (count max_tries : Z) (timeout : float)
    (s0 s1 : St c) (out : list event) :
  (forall e s2,
     aenter c address s0 = (None, s1) ->
     get_realtime_reading c real_time.HEART_RATE s1 = (inl e, s2) ->
     realtime_hr c address (s0, out) =
     (inl e, (s2, out ++ [Connect address; Print MsgStarting;
                          RealTimeRequest real_time.HEART_RATE;
                          Disconnect]))) /\
  (forall e s2,
     aenter c address s0 = (None, s1) ->
     get_realtime_reading c real_time.SPO2 s1 = (inl e, s2) ->
     collect_spo2 c address count max_tries timeout (s0, out) =
     (inl e, (s2, out ++ [Connect address;
                          RealTimeRequest real_time.SPO2; Disconnect]))) /\
  (forall e,
     aenter c address s0 = (Some e, s1) ->
     realtime_hr c address (s0, out) =
     (inl e, (s1, out ++ [Connect address])) /\
     collect_spo2 c address count max_tries timeout (s0, out) =
     (inl e, (s1, out ++ [Connect address]))).
Proof.
  split; [|split].
  - intros e s2 Hopen Hget.
    unfold realtime_hr, bind, with_client, call, print, emit, ret.
    cbn [fst snd]. rewrite Hopen. cbn [fst snd]. rewrite Hget.
    cbn [fst snd]. now rewrite <- !app_assoc.
  - intros e s2 Hopen Hget.
    unfold collect_spo2, bind, with_client, call, ret.
    cbn [fst snd]. rewrite Hopen. cbn [fst snd]. rewrite Hget.
    cbn [fst snd]. now rewrite <- !app_assoc.
  - intros e Hopen. split.
    + unfold realtime_hr, with_client. cbn [fst snd]. now rewrite Hopen.
    + unfold collect_spo2, bind, with_client. cbn [fst snd].
      now rewrite Hopen.
Qed.

Lemma summarize_run (readings : list Z) (w : world c) :
  fst (summarize c readings w) = inr tt.
Proof.
  unfold summarize, bind, print, emit.
  destruct readings; reflexivity.
Qed.

(** X8: [main] of get_spo2.py lets no [Exception] out.  Whatever the ring
    does, an exception that leaves [main] is not of class [Exception]; an
    [Exception] raised while collecting is printed on the error line and
    [main] returns normally. *)
Theorem spo2_main_catches_exceptions
    (address : string) (count : Z) (w : world c) :
  (forall e, fst (spo2_main c address count w) = inl e ->
             is_Exception e = false) /\
  (forall e w',
     collect_spo2 c address count 20 2%float w = (inl e, w') ->
     is_Exception e = true ->
     spo2_main c address count w =
     (inr tt, (fst w', snd w' ++ [Print (MsgSpo2Error e)]))).
Proof.
  split.
  - intros e. unfold spo2_main, bind, attempt.
    destruct (collect_spo2 c address count 20 2%float w)
      as [[e0 | readings] w'] eqn:Hc.
    + destruct (is_Exception e0) eqn:He0.
      * discriminate.
      * intros H. injection H as <-. exact He0.
    + pose proof (summarize_run readings w') as Hs.
      destruct (summarize c readings w') as [[e1 | u] w''];
        [discriminate Hs | discriminate].
  - intros e w' Hc He. unfold spo2_main, bind, attempt.
    rewrite Hc, He. reflexivity.
Qed.

(** X9: when the answer holds a valid reading, [main] of get_spo2.py
    prints the valid readings, in the order received, and their statistics:
    nothing of the readings outside 50..100 reaches the statistics. *)
Theorem spo2_main_summarizes_valid
    (address : string) (count : Z) (s0 s1 s2 : St c) (out : list event)
    (readings : list Z) :
  let valid := filter valid_spo2 readings in
  aenter c address s0 = (None, s1) ->
  get_realtime_reading c real_time.SPO2 s1 = (inr (Some readings), s2) ->
  valid <> [] ->
  spo2_main c address count (s0, out) =
  (inr tt,
   (s2, out ++ [Connect address; RealTimeRequest real_time.SPO2;
                Disconnect; Print (MsgSpo2Readings valid);
                Print (MsgSummary valid)])) /\
  Forall (fun r => 50 <= r <= 100) valid.
Proof.
  intros valid Hopen Hget Hne. split; [|apply filter_valid_spo2_range].
  unfold spo2_main, bind, attempt.
  rewrite (collect_spo2_run c address count 20 2%float s0 s1 s2 out
             (Some readings) Hopen Hget).
  fold valid. unfold summarize, bind, print, emit, ret.
  destruct valid as [|v vs]; [now elim Hne|].
  cbn [fst snd]. now rewrite <- !app_assoc.
Qed.

(** X10: [collect_spo2] asks the ring once.  Whatever [count] and
    [max_tries] are and whatever the ring does, a call either fails to
    connect, or connects, issues exactly one real-time request and
    disconnects: it never asks again. *)
Theorem collect_spo2_single_request
    (address : string) (count max_tries : Z) (timeout : float)
    (s0 : St c) (out : list event) :
  let run := collect_spo2 c address count max_tries timeout (s0, out) in
  (snd (snd run) = out ++ [Connect address] /\ exists e, fst run = inl e) \/
  snd (snd run) = out ++ [Connect address; RealTimeRequest real_time.SPO2;
                          Disconnect].
Proof.
  intros run. unfold run, collect_spo2, bind, with_client, call, ret.
  cbn [fst snd].
  destruct (aenter c address s0) as [[e|] s1]; cbn [fst snd].
  - left. split; [reflexivity | now exists e].
  - right.
    destruct (get_realtime_reading c real_time.SPO2 s1)
      as [[e | [readings|]] s2]; cbn [fst snd];
      now rewrite <- !app_assoc.
Qed.

End RealTimeEdges.

(** ** Dates from the command line, and [main] of get_hr.py *)

Lemma calendar_day_start_of_day (d : datetime) :
  calendar_day (date_utils.start_of_day d).
Proof.
  unfold calendar_day, date_utils.start_of_day. cbn [datetime.wall].
  rewrite Zminus_mod_idemp_r, Z.sub_diag. reflexivity.
Qed.

Lemma make_aware_aware (d : datetime) :
  datetime.is_naive (make_aware d) = false.
Proof. destruct d as [w [off|]]; reflexivity. Qed.

Lemma make_aware_of_aware (d : datetime) :
  datetime.is_naive d = false -> make_aware d = d.
Proof. unfold make_aware. now intros ->. Qed.

Section CommandLine.

Variable c : Client.
Variable isoformat : datetime -> string.
Variable sample_interval : Z.
Variable now : datetime.
Variable fromisoformat : string -> exn + datetime.
Variable strptime_ymd : string -> exn + datetime.

(** X11: a date [normalize_date_input] hands out is aware and at the
    start of its day, so making it aware or taking the start of its day
    again changes nothing; and it hands out [None] for no string only. *)
Theorem normalize_date_input_aware_day (dt_str : option string) :
  (forall d,
     normalize_date_input fromisoformat strptime_ymd dt_str = inr (Some d) ->
     datetime.is_naive d = false /\ calendar_day d /\
     date_utils.start_of_day d = d /\ make_aware d = d) /\
  (normalize_date_input fromisoformat strptime_ymd dt_str = inr None <->
   dt_str = None).
Proof.
  split.
  - intros d. unfold normalize_date_input.
    destruct dt_str as [str|]; [|discriminate].
    destruct (match fromisoformat str with
              | inl e => if is_Exception e then strptime_ymd str else inl e
              | inr dt => inr dt
              end) as [e | dt]; [discriminate|].
    intros H. injection H as <-.
    assert (Ha : datetime.is_naive
                   (date_utils.start_of_day (make_aware dt)) = false).
    { pose proof (make_aware_aware dt) as H.
      unfold datetime.is_naive, date_utils.start_of_day in *.
      exact H. }
    split; [exact Ha|]. split; [apply calendar_day_start_of_day|].
    split.
    + apply start_of_day_calendar_day, calendar_day_start_of_day.
    + apply make_aware_of_aware, Ha.
  - split.
    + unfold normalize_date_input. destruct dt_str as [str|]; [|reflexivity].
      destruct (match fromisoformat str with
                | inl e => if is_Exception e then strptime_ymd str else inl e
                | inr dt => inr dt
                end); discriminate.
    + intros ->. reflexivity.
Qed.

(** X12: in log mode a date that does not parse stops [main] before
    anything is done: the parser's exception goes on to the caller, no
    connection is opened and nothing is printed.  The three dates are
    parsed in the order target, start, end, and the target also when a
    start or an end makes [main] ignore it. *)
Theorem hr_main_bad_date_stops
    (address : string)
    (args_target args_start args_end args_csv : option string)
    (e : exn) (w : world c) :
  normalize_date_input fromisoformat strptime_ymd args_target = inl e \/
  (exists t,
     normalize_date_input fromisoformat strptime_ymd args_target = inr t) /\
  (normalize_date_input fromisoformat strptime_ymd args_start = inl e \/
   (exists s,
      normalize_date_input fromisoformat strptime_ymd args_start = inr s) /\
   normalize_date_input fromisoformat strptime_ymd args_end = inl e) ->
  hr_main c isoformat sample_interval now fromisoformat strptime_ymd
    address true args_target args_start args_end args_csv w =
  (inl e, w).
Proof.
  unfold hr_main, bind, lift.
  intros [Ht | [[t Ht] [Hs | [[s Hs] He]]]].
  - now rewrite Ht.
  - now rewrite Ht, Hs.
  - now rewrite Ht, Hs, He.
Qed.

(** X13: [main] with a start and an end that parse, in one zone and with
    start <= end, requests every day from the start of the first day to the
    start of the last, a day apart, in order, when the connection opens and
    the failures are of class [Exception]; it returns normally.  A target
    given beside them changes nothing. *)
Theorem hr_main_requests_window
    (address start_str end_str : string)
    (args_target args_csv : option string) (t : option datetime)
    (ds de : datetime) (s0 s1 : St c) :
  let n := (datetime.instant de - datetime.instant ds)
             / datetime.microseconds_per_day in
  let run := hr_main c isoformat sample_interval now fromisoformat
               strptime_ymd address true args_target
               (Some start_str) (Some end_str) args_csv (s0, []) in
  normalize_date_input fromisoformat strptime_ymd args_target = inr t ->
  normalize_date_input fromisoformat strptime_ymd (Some start_str) =
    inr (Some ds) ->
  normalize_date_input fromisoformat strptime_ymd (Some end_str) =
    inr (Some de) ->
  datetime.tzinfo ds = datetime.tzinfo de ->
  datetime.gt ds de = false ->
  aenter c address s0 = (None, s1) ->
  Forall caught (fst (responses c (date_utils.dates_between ds de) s1)) ->
  fst run = inr tt /\
  hr_requests (snd (snd run)) =
    map (fun k => datetime.add_days ds (Z.of_nat k))
        (seq 0 (Z.to_nat (n + 1))) /\
  0 <= n /\ datetime.add_days ds n = de.
Proof.
  intros n run Ht Hs He Hzone Hle Hopen Hc.
  destruct (normalize_date_input_aware_day (Some start_str)) as [Hds _].
  destruct (normalize_date_input_aware_day (Some end_str)) as [Hde _].
  destruct (Hds ds Hs) as (Hans & Hcals & _ & Hmas).
  destruct (Hde de He) as (Hane & Hcale & _ & Hmae).
  assert (Hw : normalized_window now (Some ds) (Some de) = (ds, de)).
  { unfold normalized_window, default_window. now rewrite Hmas, Hmae. }
  assert (Hrun : run =
    download_hr_logs c isoformat sample_interval now address
      (Some ds) (Some de) (csv_path_of args_csv) (s0, [])).
  { unfold run, hr_main, bind, lift.
    rewrite Ht, Hs, He. unfold window_of_args.
    destruct t; reflexivity. }
  assert (Hwin : date_window ds de) by (repeat split; assumption).
  rewrite Hrun.
  rewrite (download_hr_logs_run c isoformat sample_interval now address
             (Some ds) (Some de) (csv_path_of args_csv) s0 s1 []);
    rewrite ?Hw; cbn [fst snd]; try assumption.
  split; [reflexivity|]. cbn [app].
  rewrite hr_requests_download, responses_days.
  rewrite dates_between_calendar_days by assumption.
  rewrite dates_between_window by assumption.
  split; [reflexivity|].
  exact (date_window_span ds de Hwin Hle).
Qed.

(** X14: [main] with a target that parses and no start or end downloads
    that one day, as the download does for a window with the target as its
    only end; and once a start or an end is given, a target that parses is
    ignored. *)
Theorem hr_main_target_day
    (address target_str : string) (args_csv : option string)
    (t : datetime) (w : world c) :
  normalize_date_input fromisoformat strptime_ymd (Some target_str) =
    inr (Some t) ->
  hr_main c isoformat sample_interval now fromisoformat strptime_ymd
    address true (Some target_str) None None args_csv w =
  download_hr_logs c isoformat sample_interval now address
    (Some t) (Some t) (csv_path_of args_csv) w /\
  download_hr_logs c isoformat sample_interval now address
    (Some t) (Some t) (csv_path_of args_csv) w =
  download_hr_logs c isoformat sample_interval now address
    (Some t) None (csv_path_of args_csv) w /\
  (forall args_start args_end,
     args_start <> None \/ args_end <> None ->
     hr_main c isoformat sample_interval now fromisoformat strptime_ymd
       address true (Some target_str) args_start args_end args_csv w =
     hr_main c isoformat sample_interval now fromisoformat strptime_ymd
       address true None args_start args_end args_csv w).
Proof.
  intros Ht. split; [|split].
  - unfold hr_main, bind, lift. rewrite Ht. reflexivity.
  - reflexivity.
  - intros args_start args_end Hgiven.
    unfold hr_main, bind, lift. rewrite Ht.
    change (normalize_date_input fromisoformat strptime_ymd None)
      with (@inr exn _ (@None datetime)).
    cbv iota beta.
    destruct (normalize_date_input fromisoformat strptime_ymd args_start)
      as [e | s]; [reflexivity|].
    destruct (normalize_date_input fromisoformat strptime_ymd args_end)
      as [e | en]; [reflexivity|].
    unfold window_of_args.
    destruct args_start, args_end; try reflexivity.
    destruct Hgiven as [H | H]; now elim H.
Qed.

End CommandLine.

(** ** More runs on a ring *)

Lemma download_unreachable_ring_witness :
  download_hr_logs Ring.unreachable Ring.iso Ring.five_minutes Ring.nov12
    Ring.address (Some Ring.nov1) (Some Ring.nov3) (Some "hr.csv"%string)
    (tt, []) =
  (inl Ring.timed_out, (tt, [Connect Ring.address])).
Proof.
  exact (download_unreachable_ring Ring.unreachable Ring.iso
           Ring.five_minutes Ring.nov12 Ring.address
           (Some Ring.nov1) (Some Ring.nov3) (Some "hr.csv"%string)
           tt tt [] Ring.timed_out eq_refl eq_refl).
Defined.

Lemma download_aborts_on_cancellation_witness :
  download_hr_logs Ring.idle Ring.iso Ring.five_minutes Ring.nov12
    Ring.address (Some Ring.nov1) (Some Ring.nov3) (Some "hr.csv"%string)
    (Ring.cancelled_on_day_two, []) =
  (inl Ring.cancelled,
   ([],
    [Connect Ring.address;
     Print (MsgRequesting Ring.nov1); HrLogRequest Ring.nov1;
     Print (MsgReceived 3 5 Ring.nov1);
     Print (MsgRequesting Ring.nov2); HrLogRequest Ring.nov2;
     Disconnect])).
Proof.
  assert (Hdays : date_utils.dates_between Ring.nov1 Ring.nov3 =
                  [Ring.nov1] ++ Ring.nov2 :: [Ring.nov3])
    by (vm_compute; reflexivity).
  assert (Hc : Forall caught
                 (fst (responses Ring.idle [Ring.nov1]
                         Ring.cancelled_on_day_two)))
    by (vm_compute; repeat constructor).
  etransitivity.
  - exact (download_aborts_on_cancellation Ring.idle Ring.iso
             Ring.five_minutes Ring.nov12 Ring.address
             (Some Ring.nov1) (Some Ring.nov3) (Some "hr.csv"%string)
             Ring.cancelled_on_day_two Ring.cancelled_on_day_two []
             [] [Ring.nov1] [Ring.nov3] Ring.nov2 Ring.cancelled
             eq_refl eq_refl Hdays Hc eq_refl eq_refl).
  - vm_compute. reflexivity.
Defined.

Lemma hr_loop_requests_in_order_witness :
  exists k,
    (k <= 3)%nat /\
    hr_requests
      (snd (snd (hr_loop Ring.idle Ring.iso Ring.five_minutes
                   [Ring.nov1; Ring.nov2; Ring.nov3] []
                   (Ring.cancelled_on_day_two, [])))) =
    map date_utils.start_of_day
        (firstn k [Ring.nov1; Ring.nov2; Ring.nov3]) /\
    is_Exception Ring.cancelled = false.
Proof.
  destruct (hr_loop_requests_in_order Ring.idle Ring.iso Ring.five_minutes
              [Ring.nov1; Ring.nov2; Ring.nov3] []
              Ring.cancelled_on_day_two)
    as (k & Hk & Hreq & _ & Hexc).
  exists k. split; [exact Hk|]. split; [exact Hreq|].
  apply Hexc. vm_compute. reflexivity.
Defined.

Lemma download_single_day_witness :
  hr_requests
    (snd (snd (download_hr_logs Ring.idle Ring.iso Ring.five_minutes
                 Ring.nov12 Ring.address (Some Ring.nov1_naive) None None
                 (Ring.three_days, [])))) =
  [Ring.nov1].
Proof.
  destruct (download_single_day Ring.idle Ring.iso Ring.five_minutes
              Ring.nov12 Ring.address (Some Ring.nov1_naive) None None
              Ring.three_days Ring.three_days (or_intror eq_refl) eq_refl)
    as (_ & _ & Hreq & _).
  exact Hreq.
Defined.

Lemma report_never_fails_witness :
  snd (snd (report Ring.idle [("t"%string, 0); ("t"%string, 0)] None
              ([], []))) =
  [Print (MsgTotal 2); Print MsgAllZero].
Proof.
  destruct (report_never_fails Ring.idle [("t"%string, 0); ("t"%string, 0)]
              None []) as (_ & _ & Hsummary).
  destruct (Hsummary eq_refl) as (said & Hout & _ & Hzero & _).
  etransitivity; [exact Hout|].
  f_equal. apply Hzero; [discriminate | reflexivity].
Defined.

Lemma realtime_hr_reports_nonzero_witness :
  realtime_hr Ring.worn Ring.address ([], []) =
  (inr tt,
   ([], [Connect Ring.address; Print MsgStarting;
         RealTimeRequest real_time.HEART_RATE;
         Print (MsgRawReadings [97; 0; 120; 98; 30; 99]);
         Print (MsgSummary [97; 120; 98; 30; 99]);
         Disconnect])).
Proof.
  destruct (realtime_hr_reports_nonzero Ring.worn Ring.address [] [] [] []
              (Some [97; 0; 120; 98; 30; 99]) eq_refl eq_refl)
    as [_ Hrun].
  apply (Hrun [97; 0; 120; 98; 30; 99] eq_refl). discriminate.
Defined.

Lemma realtime_failure_propagates_witness :
  realtime_hr Ring.silent Ring.address ([], []) =
  (inl Ring.timed_out,
   ([], [Connect Ring.address; Print MsgStarting;
         RealTimeRequest real_time.HEART_RATE; Disconnect])) /\
  collect_spo2 Ring.silent Ring.address 6 20 2%float ([], []) =
  (inl Ring.timed_out,
   ([], [Connect Ring.address; RealTimeRequest real_time.SPO2;
         Disconnect])).
Proof.
  destruct (realtime_failure_propagates Ring.silent Ring.address 6 20
              2%float [] [] []) as (Hhr & Hspo2 & _).
  split.
  - exact (Hhr Ring.timed_out [] eq_refl eq_refl).
  - exact (Hspo2 Ring.timed_out [] eq_refl eq_refl).
Defined.

Lemma spo2_main_catches_exceptions_witness :
  spo2_main Ring.silent Ring.address 6 ([], []) =
  (inr tt,
   ([], [Connect Ring.address; RealTimeRequest real_time.SPO2; Disconnect;
         Print (MsgSpo2Error Ring.timed_out)])) /\
  is_Exception Ring.cancelled = false.
Proof.
  split.
  - destruct (spo2_main_catches_exceptions Ring.silent Ring.address 6
                ([], [])) as [_ Hcatch].
    exact (Hcatch Ring.timed_out
             ([], [Connect Ring.address; RealTimeRequest real_time.SPO2;
                   Disconnect]) eq_refl eq_refl).
  - destruct (spo2_main_catches_exceptions Ring.interrupted Ring.address 6
                ([], [])) as [Hout _].
    apply Hout. vm_compute. reflexivity.
Defined.

Lemma spo2_main_summarizes_valid_witness :
  spo2_main Ring.worn Ring.address 6 ([], []) =
  (inr tt,
   ([], [Connect Ring.address; RealTimeRequest real_time.SPO2; Disconnect;
         Print (MsgSpo2Readings [97; 98; 99]);
         Print (MsgSummary [97; 98; 99])])).
Proof.
  destruct (spo2_main_summarizes_valid Ring.worn Ring.address 6 [] [] [] []
              [97; 0; 120; 98; 30; 99] eq_refl eq_refl) as [Hrun _].
  - discriminate.
  - exact Hrun.
Defined.

Lemma normalize_date_input_aware_day_witness :
  normalize_date_input Ring.parse_iso Ring.parse_ymd
    (Some "2025-11-02T13:30:00+00:00"%string) = inr (Some Ring.nov2) /\
  datetime.is_naive Ring.nov2 = false /\ calendar_day Ring.nov2.
Proof.
  split; [vm_compute; reflexivity|].
  destruct (normalize_date_input_aware_day Ring.parse_iso Ring.parse_ymd
              (Some "2025-11-02T13:30:00+00:00"%string)) as [Hday _].
  destruct (Hday Ring.nov2) as (Haware & Hcal & _).
  - vm_compute. reflexivity.
  - split; assumption.
Defined.

(** A target that does not parse stops [main], although the start given
    beside it would make [main] ignore the target. *)
Lemma hr_main_bad_date_stops_witness :
  hr_main Ring.idle Ring.iso Ring.five_minutes Ring.nov12
    Ring.parse_iso Ring.parse_ymd Ring.address true
    (Some "yesterday"%string) (Some "2025-11-01"%string) None None
    (Ring.three_days, []) =
  (inl Ring.not_a_date, (Ring.three_days, [])).
Proof.
  apply (hr_main_bad_date_stops Ring.idle Ring.iso Ring.five_minutes
           Ring.nov12 Ring.parse_iso Ring.parse_ymd Ring.address
           (Some "yesterday"%string) (Some "2025-11-01"%string) None None
           Ring.not_a_date (Ring.three_days, [])).
  left. vm_compute. reflexivity.
Defined.

Lemma hr_main_requests_window_witness :
  let run := hr_main Ring.idle Ring.iso Ring.five_minutes Ring.nov12
               Ring.parse_iso Ring.parse_ymd Ring.address true None
               (Some "2025-11-01"%string) (Some "2025-11-03"%string) None
               (Ring.three_days, []) in
  fst run = inr tt /\
  hr_requests (snd (snd run)) = [Ring.nov1; Ring.nov2; Ring.nov3].
Proof.
  intros run.
  assert (Hs : normalize_date_input Ring.parse_iso Ring.parse_ymd
                 (Some "2025-11-01"%string) = inr (Some Ring.nov1))
    by (vm_compute; reflexivity).
  assert (He : normalize_date_input Ring.parse_iso Ring.parse_ymd
                 (Some "2025-11-03"%string) = inr (Some Ring.nov3))
    by (vm_compute; reflexivity).
  assert (Hc : Forall caught
                 (fst (responses Ring.idle
                         (date_utils.dates_between Ring.nov1 Ring.nov3)
                         Ring.three_days)))
    by (vm_compute; repeat constructor).
  destruct (hr_main_requests_window Ring.idle Ring.iso Ring.five_minutes
              Ring.nov12 Ring.parse_iso Ring.parse_ymd Ring.address
              "2025-11-01"%string "2025-11-03"%string None None None
              Ring.nov1 Ring.nov3 Ring.three_days Ring.three_days
              eq_refl Hs He eq_refl eq_refl eq_refl Hc)
    as (Hok & Hreq & _).
  split; [exact Hok | exact Hreq].
Defined.

Lemma hr_main_target_day_witness :
  hr_main Ring.idle Ring.iso Ring.five_minutes Ring.nov12
    Ring.parse_iso Ring.parse_ymd Ring.address true
    (Some "2025-11-01"%string) None None None (Ring.three_days, []) =
  download_hr_logs Ring.idle Ring.iso Ring.five_minutes Ring.nov12
    Ring.address (Some Ring.nov1) (Some Ring.nov1) None
    (Ring.three_days, []).
Proof.
  assert (Ht : normalize_date_input Ring.parse_iso Ring.parse_ymd
                 (Some "2025-11-01"%string) = inr (Some Ring.nov1))
    by (vm_compute; reflexivity).
  destruct (hr_main_target_day Ring.idle Ring.iso Ring.five_minutes
              Ring.nov12 Ring.parse_iso Ring.parse_ymd Ring.address
              "2025-11-01"%string None Ring.nov1 (Ring.three_days, []) Ht)
    as [Hrun _].
  exact Hrun.
Defined.

(** ** The connection of a download *)

Section Connection.

Variable c : Client.
Variable isoformat : datetime -> string.
Variable sample_interval : Z.
Variable now : datetime.

(** The loop only prints and requests logs. *)
Lemma hr_loop_events (days : list datetime) : forall rows s out,
  exists new,
    snd (snd (hr_loop c isoformat sample_interval days rows (s, out))) =
      out ++ new /\
    forallb loop_event new = true.
Proof.
  induction days as [|d rest IH]; intros rows s out.
  - exists []. simpl. now rewrite app_nil_r.
  - rewrite hr_loop_step. cbv zeta.
    destruct (get_heart_rate_log c (date_utils.start_of_day d) s)
      as [a s'] eqn:Hget. cbn [fst snd].
    assert (Hev : forallb loop_event (events_of_day (d, a)) = true).
    { destruct a as [e | [lg | ]]; reflexivity. }
    destruct a as [e | r].
    + destruct (is_Exception e).
      * destruct (IH rows s' (out ++ events_of_day (d, inl e)))
          as (new & Hout & Hnew).
        exists (events_of_day (d, inl e) ++ new).
        split; [now rewrite Hout, <- app_assoc|].
        now rewrite forallb_app, Hev, Hnew.
      * exists [Print (MsgRequesting d);
                HrLogRequest (date_utils.start_of_day d)].
        split; reflexivity.
    + destruct (IH (rows ++ rows_of_day isoformat sample_interval (d, inr r))
                  s' (out ++ events_of_day (d, inr r)))
        as (new & Hout & Hnew).
      exists (events_of_day (d, inr r) ++ new).
      split; [now rewrite Hout, <- app_assoc|].
      now rewrite forallb_app, Hev, Hnew.
Qed.

(** X15: a download that opened the connection closes it, whatever the
    ring does afterwards.  Its events are the connection, the lines and
    requests of the loop, the disconnection, and only then the report: the
    file is never written while the connection is open, and when the
    download raises nothing is reported at all. *)
Theorem download_always_disconnects
    (address : string) (start end_ : option datetime)
    (csv_path : option string) (s0 s1 : St c) :
  let w := normalized_window now start end_ in
  let run := download_hr_logs c isoformat sample_interval now address
               start end_ csv_path (s0, []) in
  datetime.gt (fst w) (snd w) = false ->
  aenter c address s0 = (None, s1) ->
  exists during after,
    snd (snd run) = [Connect address] ++ during ++ [Disconnect] ++ after /\
    forallb loop_event during = true /\
    (forall e, fst run = inl e -> after = [] /\ is_Exception e = false) /\
    (fst run = inr tt ->
     exists rows, snd (report c rows csv_path (s1, [])) = (s1, after)).
Proof.
  intros w run Hle Hopen.
  set (days := date_utils.dates_between (fst w) (snd w)).
  destruct (hr_loop_events days [] s1 [Connect address])
    as (during & Hout & Hduring).
  destruct (hr_loop_shape c isoformat sample_interval days [] s1
              [Connect address]) as (k & new & _ & _ & _ & Hres).
  assert (Hrun : run =
    let '(res, w') := hr_loop c isoformat sample_interval days []
                        (s1, [Connect address]) in
    match res with
    | inl e => (inl e, (fst w', snd w' ++ [Disconnect]))
    | inr rows => report c rows csv_path (fst w', snd w' ++ [Disconnect])
    end).
  { unfold run, download_hr_logs. fold w. destruct w as [st en].
    cbn [fst snd] in *. rewrite Hle.
    unfold bind at 1. unfold with_client. cbn [fst snd]. rewrite Hopen.
    fold days. cbn [app].
    destruct (hr_loop c isoformat sample_interval days []
                (s1, [Connect address])) as [[e|rows] w']; reflexivity. }
  destruct (hr_loop c isoformat sample_interval days []
              (s1, [Connect address])) as [[e|rows] [s' o]] eqn:Hloop;
    cbn [fst snd] in *; subst o.
  - exists during, []. rewrite Hrun. cbn [fst snd].
    split; [now rewrite <- !app_assoc|]. split; [exact Hduring|]. split.
    + intros e' E. injection E as <-. split; [reflexivity | exact Hres].
    + discriminate.
  - exists during, (report_events rows csv_path).
    rewrite Hrun, report_run. cbn [fst snd].
    split; [now rewrite <- !app_assoc|]. split; [exact Hduring|]. split.
    + discriminate.
    + intros _. exists rows. now rewrite report_run.
Qed.

End Connection.

Lemma download_always_disconnects_witness :
  exists during after,
    snd (snd (download_hr_logs Ring.idle Ring.iso Ring.five_minutes
                Ring.nov12 Ring.address (Some Ring.nov1) (Some Ring.nov3)
                None (Ring.cancelled_on_day_two, []))) =
    [Connect Ring.address] ++ during ++ [Disconnect] ++ after /\
    forallb loop_event during = true.
Proof.
  destruct (download_always_disconnects Ring.idle Ring.iso Ring.five_minutes
              Ring.nov12 Ring.address (Some Ring.nov1) (Some Ring.nov3)
              None Ring.cancelled_on_day_two Ring.cancelled_on_day_two
              eq_refl eq_refl)
    as (during & after & Hout & Hduring & _).
  exists during, after. split; assumption.
Defined.
